(** * arXiv paper store: loader, query CLI and HTTP front end

    A shallow embedding of [problem2/load_data.py], [problem2/query_papers.py]
    and [problem2/api_server.py], and the properties of the write-time fan-out
    and of the read-time routing that the design document states.

    Conventions of the embedding.
    - A Python [str] is a [string]; a character stands for its code point, so
      the development covers text whose code points are below 256.  Order on
      strings is [String.compare], the code-point order, which is also the
      order the store applies to string keys.
    - A Python [dict] with string keys is a [gmap string _].
    - A function that may raise returns a [result]. *)

From Stdlib Require Import Ascii.
From stdpp Require Import gmap strings list fin_maps sorting.

Open Scope stdpp_scope.
Open Scope nat_scope.

(** ** Python string primitives *)

Module Py.

(** [str.isspace] on one character, for code points below 256. *)
Definition isspace (c : ascii) : bool :=
  let n := nat_of_ascii c in
  ((9 <=? n) && (n <=? 13)) || ((28 <=? n) && (n <=? 32))
  || (n =? 133) || (n =? 160).

Fixpoint lstrip (s : string) : string :=
  match s with
  | String c s' => if isspace c then lstrip s' else s
  | EmptyString => EmptyString
  end.

Definition rstrip (s : string) : string := String.rev (lstrip (String.rev s)).

(** [s.strip()] *)
Definition strip (s : string) : string := rstrip (lstrip s).

(** Truth value of a string: [bool(s)]. *)
Definition truthy (s : string) : bool :=
  match s with EmptyString => false | String _ _ => true end.

(** [c in s] for a one-character [c]. *)
Fixpoint contains (c : ascii) (s : string) : bool :=
  match s with
  | EmptyString => false
  | String d s' => Ascii.eqb c d || contains c s'
  end.

(** [s.split(c, 1)[0]]: the text before the first [c], all of [s] when
    [c] does not occur. *)
Fixpoint before (c : ascii) (s : string) : string :=
  match s with
  | EmptyString => EmptyString
  | String d s' => if Ascii.eqb c d then EmptyString else String d (before c s')
  end.

(** [s[:n]] *)
Fixpoint take (n : nat) (s : string) : string :=
  match n, s with
  | S n', String c s' => String c (take n' s')
  | _, _ => EmptyString
  end.

(** [s[n:]] *)
Fixpoint drop (n : nat) (s : string) : string :=
  match n, s with
  | S n', String _ s' => drop n' s'
  | _, _ => s
  end.

(** [s.startswith(p)] *)
Definition startswith (p s : string) : bool := String.prefix p s.

(** [s.count(c)] for a one-character [c]. *)
Fixpoint count (c : ascii) (s : string) : nat :=
  match s with
  | EmptyString => 0
  | String d s' => (if Ascii.eqb c d then 1 else 0) + count c s'
  end.

(** [str.lower] on one character, for code points below 256: the ASCII
    capitals and the Latin-1 capitals U+00C0..U+00DE, U+00D7 excepted. *)
Definition lower_char (c : ascii) : ascii :=
  let n := nat_of_ascii c in
  if ((65 <=? n) && (n <=? 90))
     || ((192 <=? n) && (n <=? 222) && negb (n =? 215))
  then ascii_of_nat (n + 32) else c.

Fixpoint lower (s : string) : string :=
  match s with
  | EmptyString => EmptyString
  | String c s' => String (lower_char c) (lower s')
  end.

(** [a or b] on optional strings, as [dict.get] results: [None] stands for
    an absent key or a JSON null. *)
Definition or_else (a b : option string) : option string :=
  match a with
  | Some s => if truthy s then a else b
  | None => b
  end.

(** [a or ""] *)
Definition or_empty (a : option string) : string :=
  match a with
  | Some s => s
  | None => EmptyString
  end.

End Py.

(** ** The loader: dates *)

Definition SENTINEL_DATE : string := "0000-00-00".

(** [ymd] of [load_data.py]. *)
Definition ymd (date_str_iso : option string) : string :=
  match date_str_iso with
  | None => SENTINEL_DATE
  | Some s0 =>
      if negb (Py.truthy s0) then SENTINEL_DATE
      else
        let s := if Py.contains "T" s0 then Py.before "T" s0 else s0 in
        if 10 <=? String.length s then Py.take 10 s else SENTINEL_DATE
  end.

(** ** The loader: keyword extraction *)

Definition STOPWORDS : gset string := list_to_set [
  "the"; "a"; "an"; "and"; "or"; "but"; "in"; "on"; "at"; "to"; "for";
  "of"; "with"; "by"; "from"; "up"; "about"; "into"; "through"; "during";
  "is"; "are"; "was"; "were"; "be"; "been"; "being"; "have"; "has"; "had";
  "do"; "does"; "did"; "will"; "would"; "could"; "should"; "may"; "might";
  "can"; "this"; "that"; "these"; "those"; "we"; "our"; "use"; "using";
  "based"; "approach"; "method"; "paper"; "propose"; "proposed"; "show" ].

(** The character class [[a-zA-Z]]. *)
Definition is_alpha (c : ascii) : bool :=
  let n := nat_of_ascii c in
  ((65 <=? n) && (n <=? 90)) || ((97 <=? n) && (n <=? 122)).

(** The run being scanned, when it is not empty, is a match. *)
Definition flush (run : string) : list string :=
  match run with
  | EmptyString => []
  | String _ _ => [run]
  end.

(** [re.findall(r"[a-zA-Z]+", s)], scanning left to right; [run] is the
    match in progress. *)
Fixpoint findall_alpha_from (run : string) (s : string) : list string :=
  match s with
  | EmptyString => flush run
  | String c s' =>
      if is_alpha c then findall_alpha_from (run +:+ String c EmptyString) s'
      else flush run ++ findall_alpha_from EmptyString s'
  end.

Definition findall_alpha (s : string) : list string :=
  findall_alpha_from EmptyString s.

(** The filter of [tokenize_words]: [t not in STOPWORDS and len(t) > 2]. *)
Definition kept_token (t : string) : bool :=
  negb (bool_decide (t ∈ STOPWORDS)) && (2 <? String.length t).

(** [tokenize_words] of [load_data.py]. *)
Definition tokenize_words (text : option string) : list string :=
  let tokens := findall_alpha (Py.lower (Py.or_empty text)) in
  List.filter kept_token tokens.

(** [collections.Counter]: a dictionary in insertion order, as a list of
    (element, count) pairs.  [counter_add w c] is [c[w] += 1]. *)
Fixpoint counter_add (w : string) (c : list (string * nat)) : list (string * nat) :=
  match c with
  | [] => [(w, 1)]
  | (v, n) :: c' =>
      if String.eqb v w then (v, S n) :: c' else (v, n) :: counter_add w c'
  end.

Definition Counter (tokens : list string) : list (string * nat) :=
  foldl (λ c w, counter_add w c) [] tokens.

(** [sorted(items, key=count, reverse=True)]: a stable sort, so that entries
    of equal count keep their order.  [insert_desc x l] puts [x] in front of
    the first entry whose count is not greater than that of [x]. *)
Fixpoint insert_desc (x : string * nat) (l : list (string * nat)) : list (string * nat) :=
  match l with
  | [] => [x]
  | y :: l' => if x.2 <? y.2 then y :: insert_desc x l' else x :: l
  end.

Definition sorted_desc (l : list (string * nat)) : list (string * nat) :=
  foldr insert_desc [] l.

(** [Counter.most_common(k)], which is [heapq.nlargest(k, items, key=count)]
    and by its documentation [sorted(items, key=count, reverse=True)[:k]];
    for [k <= 0] it is the empty list. *)
Definition most_common (k : Z) (c : list (string * nat)) : list (string * nat) :=
  take (Z.to_nat k) (sorted_desc c).

(** [top_keywords_from_abstract] of [load_data.py]. *)
Definition top_keywords_from_abstract (abstract : option string) (k : Z) : list string :=
  let tokens := tokenize_words abstract in
  match tokens with
  | [] => []
  | _ :: _ => (most_common k (Counter tokens)).*1
  end.

(** ** Keyword extraction as the design document words it *)

(** [Runs s ts]: [ts] are the maximal runs of letters of [s], left to right.
    A run is a non-empty block of letters that ends at the end of the text or
    in front of a character that is not a letter; the characters between runs
    are not letters. *)
Definition all_alpha (t : string) : Prop :=
  ∀ c, Py.contains c t = true → is_alpha c = true.

Definition at_boundary (s : string) : Prop :=
  match s with
  | EmptyString => True
  | String c _ => is_alpha c = false
  end.

Inductive Runs : string → list string → Prop :=
  | Runs_end : Runs EmptyString []
  | Runs_skip c s ts :
      is_alpha c = false → Runs s ts → Runs (String c s) ts
  | Runs_run t s ts :
      t ≠ EmptyString → all_alpha t → at_boundary s → Runs s ts →
      Runs (t +:+ s) (t :: ts).

(** Number of occurrences of [w] in the token sequence. *)
Fixpoint occurrences (w : string) (tokens : list string) : nat :=
  match tokens with
  | [] => 0
  | v :: tokens' => (if String.eqb v w then 1 else 0) + occurrences w tokens'
  end.

(** Position of the first occurrence of [w]; the length of the sequence when
    [w] does not occur. *)
Fixpoint first_index (w : string) (tokens : list string) : nat :=
  match tokens with
  | [] => 0
  | v :: tokens' => if String.eqb v w then 0 else S (first_index w tokens')
  end.

(** [a] is ranked before [b]: it is more frequent, or as frequent and first
    seen earlier. *)
Definition ranks_before (tokens : list string) (a b : string) : Prop :=
  occurrences b tokens < occurrences a tokens
  ∨ (occurrences a tokens = occurrences b tokens
     ∧ first_index a tokens < first_index b tokens).

(** Order of the entries after the stable descending sort: greater count
    first, and [before] among entries of equal count. *)
Definition count_desc_then (before : relation (string * nat))
    (x y : string * nat) : Prop :=
  y.2 < x.2 ∨ (x.2 = y.2 ∧ before x y).

(** ** Values, dictionaries and exceptions *)

(** The attribute values the loader stores: strings and lists of strings;
    [VNone] is Python's [None]. *)
Inductive value : Type :=
  | VNone
  | VStr (s : string)
  | VList (l : list string).

Global Instance value_eq_dec : EqDecision value.
Proof. solve_decision. Defined.

Abbreviation dict := (gmap string value).

(** Truth value of an attribute value. *)
Definition value_truthy (v : value) : bool :=
  match v with
  | VNone => false
  | VStr s => Py.truthy s
  | VList l => match l with [] => false | _ :: _ => true end
  end.

(** [d.get(k)] used as a condition. *)
Definition get_truthy (d : dict) (k : string) : bool :=
  match d !! k with
  | Some v => value_truthy v
  | None => false
  end.

(** The three tests of [compact]: [None], the empty string, the empty list. *)
Definition kept_value (v : value) : bool :=
  match v with
  | VNone => false
  | VStr s => negb (String.eqb s "")
  | VList l => negb (length l =? 0)
  end.

(** [compact] of [load_data.py]. *)
Definition compact (d : dict) : dict :=
  filter (λ kv, kept_value kv.2 = true) d.

(** What the embedded code can raise.  [NotModelled] stands for the one
    operation the embedding leaves out: formatting a value that is not a
    string into a key. *)
Inductive exn : Type :=
  | KeyError (k : string)
  | TypeError
  | ClientError
  | NotModelled.

Inductive result (A : Type) : Type :=
  | Ok (a : A)
  | Raise (e : exn).
Arguments Ok {A} a.
Arguments Raise {A} e.

Global Instance result_ret : MRet result := @Ok.
Global Instance result_bind : MBind result := λ A B f m,
  match m with
  | Ok a => f a
  | Raise e => Raise e
  end.
Global Instance result_fmap : FMap result := λ A B f m,
  match m with
  | Ok a => Ok (f a)
  | Raise e => Raise e
  end.

(** A [for] loop over [l] whose body updates [st] and may raise. *)
Fixpoint for_each {A S : Type} (body : S → A → result S) (st : S) (l : list A)
    : result S :=
  match l with
  | [] => Ok st
  | x :: l' => st' ← body st x; for_each body st' l'
  end.

(** ** The loader: item builders *)

(** [paper[k]] formatted into an f-string. *)
Definition subscript_str (paper : dict) (k : string) : result string :=
  match paper !! k with
  | Some (VStr s) => Ok s
  | Some _ => Raise NotModelled
  | None => Raise (KeyError k)
  end.

(** [pub_date or '0000-00-00'] *)
Definition date_or_sentinel (pub_date : string) : string :=
  if Py.truthy pub_date then pub_date else "0000-00-00".

(** [make_master_item] of [load_data.py].  In the dictionary display the
    fields of [paper] come last and so take precedence. *)
Definition make_master_item (paper : dict) (pub_date : string) : result dict :=
  arxiv_id ← subscript_str paper "arxiv_id";
  let pk := "PAPER#" +:+ arxiv_id in
  let sk := "MASTER" in
  let gsi2pk := "PAPER#" +:+ arxiv_id in
  let gsi2sk := date_or_sentinel pub_date in
  let item : dict :=
    paper ∪ <["PK" := VStr pk]> (<["SK" := VStr sk]>
            (<["GSI2PK" := VStr gsi2pk]> (<["GSI2SK" := VStr gsi2sk]>
            (<["item_type" := VStr "MASTER"]> ∅)))) in
  Ok (compact item).

(** [make_category_item] of [load_data.py]. *)
Definition make_category_item (paper : dict) (category pub_date : string)
    : result dict :=
  let pk := "CATEGORY#" +:+ category in
  arxiv_id ← subscript_str paper "arxiv_id";
  let sk := date_or_sentinel pub_date +:+ "#" +:+ arxiv_id in
  let item : dict :=
    paper ∪ <["PK" := VStr pk]> (<["SK" := VStr sk]>
            (<["item_type" := VStr "CATEGORY"]> ∅)) in
  Ok (compact item).

(** [make_author_item] of [load_data.py]; [Ok None] is the [return None]. *)
Definition make_author_item (paper : dict) (author pub_date : string)
    : result (option dict) :=
  if negb (Py.truthy author) then Ok None
  else
    arxiv_id ← subscript_str paper "arxiv_id";
    let pk := "AUTHORITEM#" +:+ author +:+ "#" +:+ arxiv_id in
    arxiv_id' ← subscript_str paper "arxiv_id";
    let sk := date_or_sentinel pub_date +:+ "#" +:+ arxiv_id' in
    let gsi1pk := "AUTHOR#" +:+ author in
    let gsi1sk := sk in
    let item : dict :=
      paper ∪ <["PK" := VStr pk]> (<["SK" := VStr sk]>
              (<["GSI1PK" := VStr gsi1pk]> (<["GSI1SK" := VStr gsi1sk]>
              (<["item_type" := VStr "AUTHOR"]> ∅)))) in
    Ok (Some (compact item)).

(** [make_keyword_item] of [load_data.py]. *)
Definition make_keyword_item (paper : dict) (keyword pub_date : string)
    : result (option dict) :=
  if negb (Py.truthy keyword) then Ok None
  else
    let kw := Py.lower keyword in
    arxiv_id ← subscript_str paper "arxiv_id";
    let pk := "KEYWORDITEM#" +:+ kw +:+ "#" +:+ arxiv_id in
    arxiv_id' ← subscript_str paper "arxiv_id";
    let sk := date_or_sentinel pub_date +:+ "#" +:+ arxiv_id' in
    let gsi3pk := "KEYWORD#" +:+ kw in
    let gsi3sk := sk in
    let item : dict :=
      paper ∪ <["PK" := VStr pk]> (<["SK" := VStr sk]>
              (<["GSI3PK" := VStr gsi3pk]> (<["GSI3SK" := VStr gsi3sk]>
              (<["item_type" := VStr "KEYWORD"]> ∅)))) in
    Ok (Some (compact item)).

(** ** The store *)

(** The table: items addressed by the pair of primary key attributes
    [(PK, SK)]; a put under a pair already in use replaces the item. *)
Abbreviation table := (gmap (string * string) dict).

Definition INDEX_KEY_ATTRIBUTES : list string :=
  ["GSI1PK"; "GSI1SK"; "GSI2PK"; "GSI2SK"; "GSI3PK"; "GSI3SK"].

(** The store accepts an index key attribute that is absent or a non-empty
    string. *)
Definition index_key_ok (it : dict) (k : string) : bool :=
  match it !! k with
  | None => true
  | Some (VStr s) => Py.truthy s
  | Some _ => false
  end.

(** [writer.put_item(Item=it)]: the store wants both primary key attributes
    to be non-empty strings, and refuses the item otherwise. *)
Definition put_item (t : table) (it : dict) : result table :=
  match it !! "PK", it !! "SK" with
  | Some (VStr pk), Some (VStr sk) =>
      if Py.truthy pk && Py.truthy sk
         && forallb (index_key_ok it) INDEX_KEY_ATTRIBUTES
      then Ok (<[(pk, sk) := it]> t)
      else Raise ClientError
  | _, _ => Raise ClientError
  end.

(** The guard of [batch_write]: [None], or a missing or empty [PK] or [SK]. *)
Definition skipped_by_writer (it : option dict) : bool :=
  match it with
  | None => true
  | Some d => negb (get_truthy d "PK") || negb (get_truthy d "SK")
  end.

(** [batch_write] of [load_data.py]. *)
Definition batch_write (t : table) (items : list (option dict)) : result table :=
  for_each
    (λ t it,
       match it with
       | None => Ok t
       | Some d =>
           if negb (get_truthy d "PK") || negb (get_truthy d "SK") then Ok t
           else put_item t d
       end)
    t items.

(** The items [batch_write] hands to [put_item], in order. *)
Definition submitted (items : list (option dict)) : list dict :=
  omap (λ it, if skipped_by_writer it then None else it) items.

(** ** The loader: one pass over the papers *)

(** An element of a JSON array: a string, or anything else. *)
Inductive json_elem : Type :=
  | JString (s : string)
  | JOther.

(** A raw paper in the loader's input format.  A field is [None] when the key
    is absent or null. *)
Record raw_paper : Type := RawPaper {
  r_arxiv_id : option string;
  r_id : option string;
  r_title : option string;
  r_authors : option (list json_elem);
  r_abstract : option string;
  r_categories : option (list json_elem);
  r_published : option string;
  r_date : option string;
}.

(** [[a for a in (l or []) if isinstance(a, str) and a.strip()]] *)
Definition nonblank_strings (l : option (list json_elem)) : list string :=
  omap (λ a, match a with
             | JString s => if Py.truthy (Py.strip s) then Some s else None
             | JOther => None
             end)
       (default [] l).

(** The fields normalised at the head of the loop body. *)
Record normalized : Type := Normalized {
  n_paper : dict;
  n_categories : list string;
  n_authors : list string;
  n_pub_date : string;
}.

(** Lines 278 to 306 of [transform_and_write]; [None] is a [continue]. *)
Definition normalize (p : raw_paper) : option normalized :=
  let arxiv_id := Py.strip (Py.or_empty (Py.or_else (r_arxiv_id p) (r_id p))) in
  if negb (Py.truthy arxiv_id) then None
  else
    let title := Py.strip (Py.or_empty (r_title p)) in
    let authors := nonblank_strings (r_authors p) in
    let abstract := Py.strip (Py.or_empty (r_abstract p)) in
    let categories := nonblank_strings (r_categories p) in
    let published_raw := Py.or_empty (Py.or_else (r_published p) (r_date p)) in
    let pub_date := ymd (Some published_raw) in
    match categories with
    | [] => None
    | _ :: _ =>
        let paper_doc : dict :=
          <["arxiv_id" := VStr arxiv_id]> (<["title" := VStr title]>
          (<["authors" := VList authors]> (<["abstract" := VStr abstract]>
          (<["categories" := VList categories]>
          (<["keywords" := VList (top_keywords_from_abstract (Some abstract) 10)]>
          (<["published" :=
               VStr (Py.or_empty
                       (Py.or_else (r_published p)
                                   (Some (pub_date +:+ "T00:00:00Z"))))]>
           ∅)))))) in
        Some (Normalized (compact paper_doc) categories authors pub_date)
    end.

(** [counts[k] += 1] on a [defaultdict(int)]. *)
Definition incr (k : string) (counts : gmap string nat) : gmap string nat :=
  <[k := S (counts !!! k)]> counts.

(** Truth value of a builder's result, the test [if it:]. *)
Definition item_truthy (it : option dict) : bool :=
  match it with
  | Some d => negb (bool_decide (d = ∅))
  | None => false
  end.

(** [if it: items.append(it); counts[kind] += 1] *)
Definition emit (kind : string) (it : option dict)
    (acc : list dict * gmap string nat) : list dict * gmap string nat :=
  match it with
  | Some d => if item_truthy it then (acc.1 ++ [d], incr kind acc.2) else acc
  | None => acc
  end.

(** The characters of a string, as [for kw in s] yields them. *)
Fixpoint chars (s : string) : list string :=
  match s with
  | EmptyString => []
  | String c s' => String c EmptyString :: chars s'
  end.

(** [paper.get('keywords', [])] as the sequence a [for] loop runs over. *)
Definition keywords_of (paper : dict) : result (list string) :=
  match paper !! "keywords" with
  | None => Ok []
  | Some (VList l) => Ok l
  | Some (VStr s) => Ok (chars s)
  | Some VNone => Raise TypeError
  end.

(** Lines 308 to 333 of [transform_and_write]: the items of one paper and the
    counters. *)
Definition build_items (paper : dict) (categories authors : list string)
    (pub_date : string) (counts : gmap string nat)
    : result (list dict * gmap string nat) :=
  master ← make_master_item paper pub_date;
  let acc := ([master], incr "master" counts) in
  acc ← for_each
          (λ acc c, it ← make_category_item paper c pub_date;
                    Ok (emit "category" (Some it) acc))
          acc categories;
  acc ← for_each
          (λ acc a, it ← make_author_item paper a pub_date;
                    Ok (emit "author" it acc))
          acc authors;
  keywords ← keywords_of paper;
  for_each
    (λ acc kw, it ← make_keyword_item paper kw pub_date;
               Ok (emit "keyword" it acc))
    acc keywords.

(** The state of the loop of [transform_and_write]: the table it writes to
    and the three values it returns. *)
Record load_state : Type := LoadState {
  st_table : table;
  total_papers : nat;
  total_items : nat;
  counts : gmap string nat;
}.

(** The body of the loop of [transform_and_write]. *)
Definition transform_step (st : load_state) (p : raw_paper) : result load_state :=
  match normalize p with
  | None => Ok st
  | Some n =>
      '(items, counts') ← build_items (n_paper n) (n_categories n)
                            (n_authors n) (n_pub_date n) (counts st);
      t' ← batch_write (st_table st) (Some <$> items);
      Ok (LoadState t' (S (total_papers st))
            (total_items st + length items) counts')
  end.

(** [transform_and_write] of [load_data.py]. *)
Definition transform_and_write (t : table) (papers : list raw_paper)
    : result load_state :=
  for_each transform_step (LoadState t 0 0 ∅) papers.

(** ** The loader as the design document words it *)

(** The items generated for one paper, [None] when the paper is skipped. *)
Definition generated_items (p : raw_paper) : result (option (list dict)) :=
  match normalize p with
  | None => Ok None
  | Some n =>
      '(items, _) ← build_items (n_paper n) (n_categories n) (n_authors n)
                      (n_pub_date n) ∅;
      Ok (Some items)
  end.

(** The items of a given kind. *)
Definition of_kind (kind : string) (items : list dict) : list dict :=
  filter (λ it, it !! "item_type" = Some (VStr kind)) items.

Definition KEY_ATTRIBUTES : list string :=
  "PK" :: "SK" :: INDEX_KEY_ATTRIBUTES.

(** The attribute, when present, is a non-empty string. *)
Definition nonempty_string_at (it : dict) (k : string) : Prop :=
  ∀ v, it !! k = Some v → ∃ s, v = VStr s ∧ s ≠ "".

(** The table after a load, when the load does not raise. *)
Definition load (t : table) (papers : list raw_paper) : result table :=
  st_table <$> transform_and_write t papers.

Definition sample_paper : raw_paper :=
  RawPaper (Some "a1") None (Some " Deep nets ")
    (Some [JString "A. Smith"; JString "  "; JOther])
    (Some "deep learning models learn deep features")
    (Some [JString "cs.LG"]) (Some "2023-01-15T00:00:00Z") None.

(** [str_at it k]: the string stored under [k], the empty string when there
    is none. *)
Definition str_at (it : dict) (k : string) : string :=
  match it !! k with
  | Some (VStr s) => s
  | _ => ""
  end.

(** The primary key pair of an item. *)
Definition key_of (it : dict) : string * string :=
  (str_at it "PK", str_at it "SK").

(** An item of the given kind under the given primary key, all of whose key
    attributes are non-empty strings. *)
Definition item_shape (kind pk sk : string) (it : dict) : Prop :=
  it !! "item_type" = Some (VStr kind)
  ∧ it !! "PK" = Some (VStr pk)
  ∧ it !! "SK" = Some (VStr sk)
  ∧ Forall (nonempty_string_at it) KEY_ATTRIBUTES.

(** Puts of a sequence of items, the later ones replacing the earlier ones
    under the same key pair. *)
Definition write_all (t : table) (items : list dict) : table :=
  foldl (λ t it, <[key_of it := it]> t) t items.

(** The items a paper contributes to a load: none when it is skipped. *)
Definition written (p : raw_paper) : list dict :=
  match generated_items p with
  | Ok (Some items) => items
  | _ => []
  end.

(** The names a paper document never uses: the key attributes and the kind. *)
Definition RESERVED : list string := "item_type" :: KEY_ATTRIBUTES.

(** The fields of a raw paper after normalisation, named as in the data
    model. *)
Definition trimmed_id (p : raw_paper) : string :=
  Py.strip (Py.or_empty (Py.or_else (r_arxiv_id p) (r_id p))).

Definition surviving_categories (p : raw_paper) : list string :=
  nonblank_strings (r_categories p).

Definition surviving_authors (p : raw_paper) : list string :=
  nonblank_strings (r_authors p).

Definition extracted_keywords (p : raw_paper) : list string :=
  top_keywords_from_abstract (Some (Py.strip (Py.or_empty (r_abstract p)))) 10.

Definition published_date (p : raw_paper) : string :=
  ymd (Some (Py.or_empty (Py.or_else (r_published p) (r_date p)))).

(** The sort key shared by the category, author and keyword items of a
    paper. *)
Definition dated_sort_key (p : raw_paper) : string :=
  published_date p +:+ "#" +:+ trimmed_id p.

(** A paper whose id is blank. *)
Definition paper_without_id : raw_paper :=
  RawPaper None (Some "   ") (Some "Untitled") None None
    (Some [JString "cs.LG"]) None None.

(** ** Queries *)

(** A [table.query] call: the table, the index when one is named, the
    equality on the partition key, the range on the sort key when there is
    one, the direction and the limit. *)
Record query_req : Type := QueryReq {
  q_table : string;
  q_index : option string;
  q_key : string * string;
  q_between : option (string * (string * string));
  q_scan_forward : bool;
  q_limit : option Z;
}.

(** The key condition, as the store evaluates it on an item:
    [Key(a).eq(v)], and [Key(b).between(lo, hi)] when given, both bounds
    included, strings compared in code-point order. *)
Definition satisfies (req : query_req) (it : dict) : bool :=
  bool_decide (it !! (q_key req).1 = Some (VStr (q_key req).2))
  && match q_between req with
     | None => true
     | Some (b, (lo, hi)) =>
         match it !! b with
         | Some (VStr s) => String.leb lo s && String.leb s hi
         | _ => false
         end
     end.

(** A computation that answers at once, or issues one query and answers
    from the items the store returns. *)
Inductive action (R : Type) : Type :=
  | Done (r : R)
  | Query (req : query_req) (k : list dict → R).
Arguments Done {R} r.
Arguments Query {R} req k.

(** What the store answers to a query. *)
Inductive store_reply : Type :=
  | Items (items : list dict)
  | Failure (message : string).

(** JSON payloads. *)
#[local] Unset Elimination Schemes.
Inductive jvalue : Type :=
  | JNull
  | JBool (b : bool)
  | JNum (n : Z)
  | JText (s : string)
  | JArray (l : list jvalue)
  | JObject (fields : list (string * jvalue))
  | JItem (it : dict).
#[local] Set Elimination Schemes.

Definition json_of_value (v : option value) : jvalue :=
  match v with
  | None | Some VNone => JNull
  | Some (VStr s) => JText s
  | Some (VList l) => JArray (JText <$> l)
  end.

(** [it.get(k, [])] *)
Definition json_of_value_or_empty (v : option value) : jvalue :=
  match v with
  | None => JArray []
  | _ => json_of_value v
  end.

Definition is_digit (c : ascii) : bool :=
  let n := nat_of_ascii c in (48 <=? n) && (n <=? 57).

(** The digits of a decimal literal, which may be separated by single
    underscores; [after_digit] tells whether the previous character was a
    digit. *)
Fixpoint int_digits (acc : Z) (after_digit : bool) (s : string) : option Z :=
  match s with
  | EmptyString => if after_digit then Some acc else None
  | String c s' =>
      if is_digit c
      then int_digits (10 * acc + Z.of_nat (nat_of_ascii c - 48))%Z true s'
      else if Ascii.eqb c "_" && after_digit then
        match s' with
        | EmptyString => None
        | String _ _ => int_digits acc false s'
        end
      else None
  end.

(** [int(s)] on a string: [None] is a [ValueError]. *)
Definition py_int (s : string) : option Z :=
  match Py.strip s with
  | String "-" body => Z.opp <$> int_digits 0 false body
  | String "+" body => int_digits 0 false body
  | body => int_digits 0 false body
  end.

(** [repr(s)] for a string that needs no escape. *)
Definition quoted (s : string) : string := "'" +:+ s +:+ "'".

(** The message of the [ValueError] of [int(s)]. *)
Definition int_error (s : string) : string :=
  "invalid literal for int() with base 10: " +:+ quoted s.

Definition DEFAULT_TABLE : string := "arxiv-papers".

(** *** The command line: [query_papers.py] *)

(** The five query functions, as the request each one sends. *)
Definition query_recent_in_category (table_name category : string) (limit : Z)
    : query_req :=
  QueryReq table_name None ("PK", "CATEGORY#" +:+ category) None false
    (Some limit).

Definition query_papers_by_author (table_name author_name : string) : query_req :=
  QueryReq table_name (Some "AuthorIndex")
    ("GSI1PK", "AUTHOR#" +:+ author_name) None true None.

Definition get_paper_by_id (table_name arxiv_id : string) : query_req :=
  QueryReq table_name (Some "PaperIdIndex")
    ("GSI2PK", "PAPER#" +:+ arxiv_id) None true None.

Definition query_papers_in_date_range
    (table_name category start_date end_date : string) : query_req :=
  QueryReq table_name None ("PK", "CATEGORY#" +:+ category)
    (Some ("SK", (start_date +:+ "#", end_date +:+ "#zzzzzzz"))) true None.

Definition query_papers_by_keyword (table_name keyword : string) (limit : Z)
    : query_req :=
  QueryReq table_name (Some "KeywordIndex")
    ("GSI3PK", "KEYWORD#" +:+ Py.lower keyword) None false (Some limit).

(** [get_flag] of [main]: the argument after the first occurrence of [name],
    [None] standing for the default. *)
Fixpoint get_flag (name : string) (args : list string) : option string :=
  match args with
  | [] => None
  | a :: args' =>
      if String.eqb a name
      then match args' with
           | [] => None
           | v :: _ => Some v
           end
      else get_flag name args'
  end.

(** [get_flag('--table', table) or table] *)
Definition table_flag (args : list string) : string :=
  match get_flag "--table" args with
  | Some t => if Py.truthy t then t else DEFAULT_TABLE
  | None => DEFAULT_TABLE
  end.

(** [int(get_flag('--limit', 20))]: the limit, or the message of the
    [ValueError]. *)
Definition limit_flag (args : list string) : Z + string :=
  match get_flag "--limit" args with
  | Some s =>
      match py_int s with
      | Some n => inl n
      | None => inr (int_error s)
      end
  | None => inl 20%Z
  end.

(** What the command prints: the payload, without the timing field that the
    [finally] clause adds to every payload; or the exit with the usage
    message. *)
Inductive cli_outcome : Type :=
  | UsageExit (code : nat)
  | Printed (payload : list (string * jvalue)).

Definition error_payload (message : string) : list (string * jvalue) :=
  [("error", JText message)].

Definition recent_projection (it : dict) : jvalue :=
  JObject [("arxiv_id", json_of_value (it !! "arxiv_id"));
           ("title", json_of_value (it !! "title"));
           ("authors", json_of_value_or_empty (it !! "authors"));
           ("published", json_of_value (it !! "published"));
           ("categories", json_of_value_or_empty (it !! "categories"))].

(** [main] of [query_papers.py], on [sys.argv]. *)
Definition main (argv : list string) : action cli_outcome :=
  match argv with
  | [] | [_] => Done (UsageExit 2)
  | _ :: cmd :: args =>
      if String.eqb cmd "recent" then
        match args with
        | [] => Done (Printed (error_payload "recent <category> [--limit N] [--table T]"))
        | category :: _ =>
            match limit_flag args with
            | inr message => Done (Printed (error_payload message))
            | inl limit =>
                Query (query_recent_in_category (table_flag args) category limit)
                  (λ items, Printed
                     [("query_type", JText "recent_in_category");
                      ("parameters", JObject [("category", JText category);
                                              ("limit", JNum limit)]);
                      ("results", JArray (recent_projection <$> items));
                      ("count", JNum (Z.of_nat (length items)))])
            end
        end
      else if String.eqb cmd "author" then
        match args with
        | [] => Done (Printed (error_payload "author <author_name> [--table T]"))
        | author :: _ =>
            Query (query_papers_by_author (table_flag args) author)
              (λ items, Printed
                 [("query_type", JText "papers_by_author");
                  ("parameters", JObject [("author", JText author)]);
                  ("results", JArray (JItem <$> items));
                  ("count", JNum (Z.of_nat (length items)))])
        end
      else if String.eqb cmd "get" then
        match args with
        | [] => Done (Printed (error_payload "get <arxiv_id> [--table T]"))
        | arxiv_id :: _ =>
            Query (get_paper_by_id (table_flag args) arxiv_id)
              (λ items, Printed
                 [("query_type", JText "get_by_id");
                  ("parameters", JObject [("arxiv_id", JText arxiv_id)]);
                  ("result", match items with
                             | it :: _ => JItem it
                             | [] => JNull
                             end);
                  ("found", JBool (match items with
                                   | it :: _ => negb (bool_decide (it = ∅))
                                   | [] => false
                                   end))])
        end
      else if String.eqb cmd "daterange" then
        match args with
        | category :: start_date :: end_date :: _ =>
            Query (query_papers_in_date_range (table_flag args) category
                     start_date end_date)
              (λ items, Printed
                 [("query_type", JText "date_range_in_category");
                  ("parameters", JObject [("category", JText category);
                                          ("start_date", JText start_date);
                                          ("end_date", JText end_date)]);
                  ("results", JArray (JItem <$> items));
                  ("count", JNum (Z.of_nat (length items)))])
        | _ => Done (Printed (error_payload
                 "daterange <category> <start_date> <end_date> [--table T]"))
        end
      else if String.eqb cmd "keyword" then
        match args with
        | [] => Done (Printed (error_payload "keyword <keyword> [--limit N] [--table T]"))
        | kw :: _ =>
            match limit_flag args with
            | inr message => Done (Printed (error_payload message))
            | inl limit =>
                Query (query_papers_by_keyword (table_flag args) kw limit)
                  (λ items, Printed
                     [("query_type", JText "papers_by_keyword");
                      ("parameters", JObject [("keyword", JText kw);
                                              ("limit", JNum limit)]);
                      ("results", JArray (JItem <$> items));
                      ("count", JNum (Z.of_nat (length items)))])
            end
        end
      else Done (Printed (error_payload ("Unknown command: " +:+ cmd)))
  end.

(** The command against a store: an exception of the store is caught by the
    [except] clause and printed as an error. *)
Definition run_main (store : query_req → store_reply) (argv : list string)
    : cli_outcome :=
  match main argv with
  | Done r => r
  | Query req k =>
      match store req with
      | Items items => k items
      | Failure message => Printed (error_payload message)
      end
  end.

(** *** The HTTP front end: [api_server.py] *)

(** The parsed query string, as [urllib.parse.parse_qs] returns it: a name
    is mapped to the non-empty list of its values, here the first value and
    the others. *)
Abbreviation query_string := (gmap string (string * list string)).

(** [q.get(name, [None])[0]] *)
Definition first_value (q : query_string) (name : string) : option string :=
  fst <$> q !! name.

(** [int(q.get("limit", [20])[0])]: the limit, [None] on a [ValueError]. *)
Definition limit_param (q : query_string) : option Z :=
  match q !! "limit" with
  | Some (s, _) => py_int s
  | None => Some 20%Z
  end.

Definition error_body (message : string) : jvalue :=
  JObject [("error", JText message)].

(** A parameter that is given and not empty. *)
Definition given (v : option string) : option string :=
  match v with
  | Some s => if Py.truthy s then Some s else None
  | None => None
  end.

Section handler.
(** [urllib.parse.unquote], the percent-decoding of a path segment. *)
Variable unquote : string → string.

(** [Handler.do_GET] of [api_server.py], on the path and the parsed query
    string of the request: the status code and the payload of the
    response. *)
Definition do_GET (path : string) (q : query_string) : action (nat * jvalue) :=
  let table := default DEFAULT_TABLE (first_value q "table") in
  if String.eqb path "/health" then
    Done (200, JObject [("status", JText "ok")])
  else if String.eqb path "/papers/recent" then
    match given (first_value q "category") with
    | None => Done (400, error_body "category is required")
    | Some category =>
        match limit_param q with
        | None => Done (400, error_body "limit must be integer")
        | Some limit =>
            Query (QueryReq table None ("PK", "CATEGORY#" +:+ category)
                     None false (Some limit))
              (λ items, (200, JObject
                 [("category", JText category);
                  ("papers", JArray (JItem <$> items));
                  ("count", JNum (Z.of_nat (length items)))]))
        end
    end
  else if Py.startswith "/papers/author/" path then
    let author := unquote (Py.drop 15 path) in
    if negb (Py.truthy author) then Done (400, error_body "author is required")
    else
      Query (QueryReq table (Some "AuthorIndex")
               ("GSI1PK", "AUTHOR#" +:+ author) None true None)
        (λ items, (200, JObject
           [("author", JText author);
            ("papers", JArray (JItem <$> items));
            ("count", JNum (Z.of_nat (length items)))]))
  else if Py.startswith "/papers/keyword/" path then
    let kw := unquote (Py.drop 16 path) in
    if negb (Py.truthy kw) then Done (400, error_body "keyword is required")
    else
      match limit_param q with
      | None => Done (400, error_body "limit must be integer")
      | Some limit =>
          Query (QueryReq table (Some "KeywordIndex")
                   ("GSI3PK", "KEYWORD#" +:+ Py.lower kw) None false
                   (Some limit))
            (λ items, (200, JObject
               [("keyword", JText kw);
                ("papers", JArray (JItem <$> items));
                ("count", JNum (Z.of_nat (length items)))]))
      end
  else if String.eqb path "/papers/search" then
    match given (first_value q "category"), given (first_value q "start"),
          given (first_value q "end") with
    | Some category, Some start, Some end_ =>
        Query (QueryReq table None ("PK", "CATEGORY#" +:+ category)
                 (Some ("SK", (start +:+ "#", end_ +:+ "#zzzzzzz"))) true None)
          (λ items, (200, JObject
             [("category", JText category);
              ("start", JText start);
              ("end", JText end_);
              ("papers", JArray (JItem <$> items));
              ("count", JNum (Z.of_nat (length items)))]))
    | _, _, _ => Done (400, error_body "category, start, end are required")
    end
  else if Py.startswith "/papers/" path && (Py.count "/" path =? 2) then
    let arxiv_id := unquote (Py.drop 8 path) in
    if negb (Py.truthy arxiv_id) then Done (400, error_body "arxiv_id is required")
    else
      Query (QueryReq table (Some "PaperIdIndex")
               ("GSI2PK", "PAPER#" +:+ arxiv_id) None true None)
        (λ items, match items with
                  | [] => (404, error_body "not found")
                  | it :: _ => (200, JItem it)
                  end)
  else Done (404, error_body "Not Found").

(** The handler against a store: an exception of the store is caught by
    the [except] clause and answered with a 500. *)
Definition serve (store : query_req → store_reply) (path : string)
    (q : query_string) : nat * jvalue :=
  match do_GET path q with
  | Done r => r
  | Query req k =>
      match store req with
      | Items items => k items
      | Failure message => (500, error_body message)
      end
  end.
End handler.

(** *** Percent-decoding *)

Definition hex_digit (c : ascii) : option nat :=
  let n := nat_of_ascii c in
  if (48 <=? n) && (n <=? 57) then Some (n - 48)
  else if (65 <=? n) && (n <=? 70) then Some (n - 55)
  else if (97 <=? n) && (n <=? 102) then Some (n - 87)
  else None.

(** [urllib.parse.unquote] on a string whose escapes, if any, denote bytes
    below 0x80: [%XX] becomes the character of code XX, and a [%] that is
    not followed by two hexadecimal digits stays.  Escapes of higher bytes
    are decoded as UTF-8 by the library, to characters beyond the strings of
    this development; they are left as they are here. *)
Fixpoint unquote_ascii (s : string) : string :=
  match s with
  | EmptyString => EmptyString
  | String c s0 =>
      if Ascii.eqb c "%" then
        match s0 with
        | String a (String b s1) =>
            match hex_digit a, hex_digit b with
            | Some h, Some l =>
                if 16 * h + l <? 128
                then String (ascii_of_nat (16 * h + l)) (unquote_ascii s1)
                else String c (String a (String b (unquote_ascii s1)))
            | _, _ => String c (unquote_ascii s0)
            end
        | _ => String c (unquote_ascii s0)
        end
      else String c (unquote_ascii s0)
  end.

(** ** The routing as the design document words it *)

(** Every character of the string sorts no later than the letter z. *)
Definition within_alphabet (s : string) : Prop :=
  ∀ c, Py.contains c s = true → Ascii.leb c "z" = true.

(** [d] lies between [start] and [end_], bounds included, in the order of
    strings. *)
Definition date_in_range (start end_ d : string) : bool :=
  String.leb start d && String.leb d end_.

(** The items of a list that satisfy the key condition of a request, as the
    answer of a store that holds them. *)
Definition holding (items : list dict) (req : query_req) : store_reply :=
  Items (filter (λ it, satisfies req it = true) items).

(** A category item, reduced to its keys. *)
Definition category_entry (category d id : string) : dict :=
  <["PK" := VStr ("CATEGORY#" +:+ category)]>
    (<["SK" := VStr (d +:+ "#" +:+ id)]> ∅).

(** A master item, reduced to its keys. *)
Definition master_entry (id d : string) : dict :=
  <["PK" := VStr ("PAPER#" +:+ id)]> (<["SK" := VStr "MASTER"]>
  (<["GSI2PK" := VStr ("PAPER#" +:+ id)]> (<["GSI2SK" := VStr d]> ∅))).

(** The request of the point lookup for an id, and what the handler answers
    from the items returned. *)
Definition point_lookup_reply (items : list dict) : nat * jvalue :=
  match items with
  | [] => (404, error_body "not found")
  | it :: _ => (200, JItem it)
  end.

(** The request is served by the point-lookup route, for the given id. *)
Definition point_lookup (a : action (nat * jvalue)) (table arxiv_id : string)
    : Prop :=
  a = Query (get_paper_by_id table arxiv_id) point_lookup_reply.

(** ** Further notions *)

(** A lowercase letter a to z. *)
Definition is_lower_letter (c : ascii) : bool :=
  let n := nat_of_ascii c in (97 <=? n) && (n <=? 122).

(** A value that [compact] drops. *)
Definition empty_value (v : value) : Prop :=
  v = VNone ∨ v = VStr "" ∨ v = VList [].

(** The paper document that every item of a paper carries: the normalised
    fields, those that are empty left out. *)
Definition paper_document (p : raw_paper) : dict :=
  compact
    (<["arxiv_id" := VStr (trimmed_id p)]>
     (<["title" := VStr (Py.strip (Py.or_empty (r_title p)))]>
     (<["authors" := VList (surviving_authors p)]>
     (<["abstract" := VStr (Py.strip (Py.or_empty (r_abstract p)))]>
     (<["categories" := VList (surviving_categories p)]>
     (<["keywords" := VList (extracted_keywords p)]>
     (<["published" :=
          VStr (Py.or_empty
                  (Py.or_else (r_published p)
                              (Some (published_date p +:+ "T00:00:00Z"))))]>
      ∅))))))).

(** The builders' results for the categories, authors and keywords of a
    paper document, in order. *)
Definition category_items_of (paper : dict) (pub : string)
    (categories : list string) (items : list dict) : Prop :=
  Forall2 (λ c d, make_category_item paper c pub = Ok d) categories items.

Definition author_items_of (paper : dict) (pub : string)
    (authors : list string) (items : list dict) : Prop :=
  Forall2 (λ a d, make_author_item paper a pub = Ok (Some d)) authors items.

Definition keyword_items_of (paper : dict) (pub : string)
    (keywords : list string) (items : list dict) : Prop :=
  Forall2 (λ k d, make_keyword_item paper k pub = Ok (Some d)) keywords items.

(** The kind and the keys of an item: the primary key pair and the partition
    keys of the three indexes, [None] for an index the item is not in. *)
Definition item_keys (kind pk sk : string) (gsi1 gsi2 gsi3 : option string)
    (it : dict) : Prop :=
  it !! "item_type" = Some (VStr kind)
  ∧ it !! "PK" = Some (VStr pk)
  ∧ it !! "SK" = Some (VStr sk)
  ∧ it !! "GSI1PK" = VStr <$> gsi1
  ∧ it !! "GSI2PK" = VStr <$> gsi2
  ∧ it !! "GSI3PK" = VStr <$> gsi3.

(** The item holds the attributes of the document, under the names that are
    not reserved for keys. *)
Definition carries (paper it : dict) : Prop :=
  ∀ k, k ∉ RESERVED → it !! k = paper !! k.

(** The items written for a paper, kind by kind, with their keys. *)
Definition master_of (p : raw_paper) (it : dict) : Prop :=
  item_keys "MASTER" ("PAPER#" +:+ trimmed_id p) "MASTER"
    None (Some ("PAPER#" +:+ trimmed_id p)) None it
  ∧ it !! "GSI2SK" = Some (VStr (published_date p)).

Definition category_of (p : raw_paper) (c : string) (it : dict) : Prop :=
  item_keys "CATEGORY" ("CATEGORY#" +:+ c) (dated_sort_key p) None None None it.

Definition author_of (p : raw_paper) (a : string) (it : dict) : Prop :=
  item_keys "AUTHOR" ("AUTHORITEM#" +:+ a +:+ "#" +:+ trimmed_id p)
    (dated_sort_key p) (Some ("AUTHOR#" +:+ a)) None None it
  ∧ it !! "GSI1SK" = Some (VStr (dated_sort_key p)).

Definition keyword_of (p : raw_paper) (k : string) (it : dict) : Prop :=
  item_keys "KEYWORD" ("KEYWORDITEM#" +:+ k +:+ "#" +:+ trimmed_id p)
    (dated_sort_key p) None None (Some ("KEYWORD#" +:+ k)) it
  ∧ it !! "GSI3SK" = Some (VStr (dated_sort_key p)).

(** An item of the paper, of one of the four kinds. *)
Definition item_of (p : raw_paper) (it : dict) : Prop :=
  master_of p it
  ∨ (∃ c, c ∈ surviving_categories p ∧ category_of p c it)
  ∨ (∃ a, a ∈ surviving_authors p ∧ author_of p a it)
  ∨ (∃ k, k ∈ extracted_keywords p ∧ keyword_of p k it).

(** A second sample paper. *)
Definition other_paper : raw_paper :=
  RawPaper None (Some "b2") (Some "Graphs")
    (Some [JString "B. Jones"])
    (Some "graph neural networks on large graphs")
    (Some [JString "cs.LG"; JString "cs.SI"]) None (Some "2023-02-20").

(** ** The statistics of a load *)

(** The papers the loop of [transform_and_write] does not skip. *)
Definition kept_papers (papers : list raw_paper) : list raw_paper :=
  filter (λ p, trimmed_id p ≠ "" ∧ surviving_categories p ≠ []) papers.

(** The number of entries of a field, summed over a list of papers. *)
Definition entries (field : raw_paper → list string)
    (papers : list raw_paper) : nat :=
  sum_list (length ∘ field <$> papers).

(** ** The loaded table behind the front ends *)



(** * Properties *)

(** ** Strings *)

#[local] Arguments String.append : simpl nomatch.

Section string_facts.
Implicit Types (s t : string) (c : ascii) (n : nat).

Lemma contains_false_before c s :
  Py.contains c s = false → Py.before c s = s.
Proof.
  induction s as [|d s IH]; simpl; [done|].
  destruct (Ascii.eqb c d); simpl; [done|].
  intros H. by rewrite IH.
Qed.

Lemma contains_take_false c n s :
  Py.contains c s = false → Py.contains c (Py.take n s) = false.
Proof.
  revert n. induction s as [|d s IH]; intros [|n]; simpl; try done.
  destruct (Ascii.eqb c d); simpl; [done|]. apply IH.
Qed.

Lemma take_before_long c n s :
  n ≤ String.length (Py.before c s) →
  Py.take n (Py.before c s) = Py.take n s
  ∧ Py.contains c (Py.take n s) = false
  ∧ n ≤ String.length s.
Proof.
  revert n. induction s as [|d s IH]; intros [|n]; simpl;
    try (intros; split_and!; (done || lia)).
  destruct (Ascii.eqb c d) eqn:E; simpl; [lia|].
  intros Hn. destruct (IH n) as (-> & -> & ?); [lia|].
  split_and!; (done || lia).
Qed.

Lemma take_before_short c n s :
  Py.contains c s = true →
  String.length (Py.before c s) < n →
  Py.contains c (Py.take n s) = true.
Proof.
  revert n. induction s as [|d s IH]; intros [|n]; simpl; try done; try lia.
  destruct (Ascii.eqb c d) eqn:E; simpl; [done|].
  intros Hc Hn. apply IH; [done|lia].
Qed.

Lemma length_str_take n s : String.length (Py.take n s) = n `min` String.length s.
Proof.
  revert n. induction s as [|d s IH]; intros [|n]; simpl; try done.
  by rewrite IH.
Qed.

Lemma truthy_false s : Py.truthy s = false ↔ s = EmptyString.
Proof. by destruct s. Qed.

Lemma truthy_true s : Py.truthy s = true ↔ s ≠ EmptyString.
Proof. by destruct s. Qed.

Lemma append_empty_r s : s +:+ EmptyString = s.
Proof. induction s as [|a s IH]; simpl; [done|by rewrite IH]. Qed.

Lemma append_assoc s t u : (s +:+ t) +:+ u = s +:+ (t +:+ u).
Proof. induction s as [|a s IH]; simpl; [done|by rewrite IH]. Qed.

Lemma append_nonempty_l s t : s ≠ EmptyString → s +:+ t ≠ EmptyString.
Proof. by destruct s. Qed.

Lemma append_nonempty_r s t : t ≠ EmptyString → s +:+ t ≠ EmptyString.
Proof. destruct s; simpl; [done|]. intros _ [=]. Qed.

Lemma length_append s t :
  String.length (s +:+ t) = String.length s + String.length t.
Proof. induction s; simpl; lia. Qed.
End string_facts.

(** ** Dates *)

Lemma ymd_length v : String.length (ymd v) = 10.
Proof.
  destruct v as [s|]; [|done]. unfold ymd.
  destruct (Py.truthy s); cbn [negb]; [|done].
  match goal with |- context [10 <=? ?n] => destruct (10 <=? n) eqn:E end; [|done].
  apply Nat.leb_le in E. rewrite length_str_take. lia.
Qed.

(** C7 (amended).  The published date is the first ten characters of the raw
    timestamp exactly when the timestamp has at least ten characters and none
    of those ten is the letter T; for every other value, an absent one
    included, it is the sentinel [0000-00-00]. *)
Theorem ymd_first_ten (v : option string) :
  ymd v =
    match v with
    | Some s =>
        if (10 <=? String.length s) && negb (Py.contains "T" (Py.take 10 s))
        then Py.take 10 s else SENTINEL_DATE
    | None => SENTINEL_DATE
    end.
Proof.
  destruct v as [s|]; [|done]. unfold ymd.
  destruct (Py.truthy s) eqn:Hs; cbn [negb].
  2:{ apply truthy_false in Hs as ->. done. }
  destruct (Py.contains "T" s) eqn:HT.
  - destruct (10 <=? String.length (Py.before "T" s)) eqn:Hlen.
    + apply Nat.leb_le, (take_before_long "T") in Hlen as (-> & -> & Hn).
      apply Nat.leb_le in Hn as ->. done.
    + apply Nat.leb_gt in Hlen.
      rewrite (take_before_short "T" 10 s HT Hlen). cbn [negb].
      by rewrite andb_false_r.
  - rewrite (contains_take_false _ _ _ HT). cbn [negb]. by rewrite andb_true_r.
Qed.

(** C7, as stated, fails on a timestamp whose date part is not zero-padded:
    it has eighteen characters, and the result is the sentinel, not its first
    ten characters. *)
Lemma ymd_unpadded_timestamp :
  10 ≤ String.length "2023-1-5T09:30:00Z"
  ∧ ymd (Some "2023-1-5T09:30:00Z") = "0000-00-00"
  ∧ ymd (Some "2023-1-5T09:30:00Z") ≠ Py.take 10 "2023-1-5T09:30:00Z".
Proof. split_and!; [simpl; lia|done|done]. Qed.

(** ** Keyword extraction *)

(** C5 (amended).  On the sample sentence the extractor drops "the" and
    "method", which are stopwords, keeps "shows", which is not one (the set
    holds "show" only), and returns the three remaining distinct tokens by
    descending frequency: "improvement" (3), "significant" (2), "shows" (1). *)
Theorem sample_keywords :
  top_keywords_from_abstract
    (Some "the method shows significant significant improvement improvement improvement") 10
  = ["improvement"; "significant"; "shows"]
  ∧ "the" ∈ STOPWORDS ∧ "method" ∈ STOPWORDS ∧ "show" ∈ STOPWORDS
  ∧ "shows" ∉ STOPWORDS.
Proof.
  split; [by vm_compute|].
  split_and!; apply (bool_decide_unpack _); by vm_compute.
Qed.

(** C5, as stated, fails: "shows" is among the returned tokens, and there
    are three of them, not at most two. *)
Lemma sample_keywords_keep_shows :
  "shows" ∈ top_keywords_from_abstract
    (Some "the method shows significant significant improvement improvement improvement") 10
  ∧ ("shows" ∉ STOPWORDS)
  ∧ length (top_keywords_from_abstract
      (Some "the method shows significant significant improvement improvement improvement") 10)
    = 3.
Proof.
  split_and!.
  - apply (bool_decide_unpack _). by vm_compute.
  - apply (bool_decide_unpack _). by vm_compute.
  - by vm_compute.
Qed.

(** *** Letter runs *)

Section runs.
Implicit Types (s t run : string) (c : ascii) (ts : list string).

Lemma all_alpha_empty : all_alpha EmptyString.
Proof. intros c. done. Qed.

Lemma all_alpha_cons c t :
  all_alpha (String c t) ↔ is_alpha c = true ∧ all_alpha t.
Proof.
  unfold all_alpha. simpl. split.
  - intros H. split.
    + apply H. by rewrite Ascii.eqb_refl.
    + intros d Hd. apply H. rewrite Hd. by rewrite orb_true_r.
  - intros [Hc Ht] d [Hd|Hd]%orb_true_iff; [|by apply Ht].
    by apply Ascii.eqb_eq in Hd as ->.
Qed.

Lemma all_alpha_snoc t c :
  all_alpha t → is_alpha c = true → all_alpha (t +:+ String c EmptyString).
Proof.
  induction t as [|d t IH]; simpl.
  - intros _ Hc. by apply all_alpha_cons.
  - intros [Hd Ht]%all_alpha_cons Hc. apply all_alpha_cons. auto.
Qed.

Lemma findall_alpha_from_runs s : ∀ run,
  all_alpha run → Runs (run +:+ s) (findall_alpha_from run s).
Proof.
  induction s as [|c s IH]; intros run Hrun; simpl.
  - rewrite append_empty_r. destruct run as [|d run]; simpl; [constructor|].
    rewrite <-(append_empty_r (String d run)) at 1.
    by repeat constructor.
  - destruct (is_alpha c) eqn:Hc.
    + specialize (IH (run +:+ String c EmptyString) (all_alpha_snoc _ _ Hrun Hc)).
      by rewrite append_assoc in IH.
    + specialize (IH EmptyString all_alpha_empty). simpl in IH.
      destruct run as [|d run]; simpl.
      * by constructor.
      * apply (Runs_run (String d run)); [done|done|done|by constructor].
Qed.

Lemma run_split t1 : ∀ t2 s1 s2,
  all_alpha t1 → all_alpha t2 → at_boundary s1 → at_boundary s2 →
  t1 +:+ s1 = t2 +:+ s2 → t1 = t2 ∧ s1 = s2.
Proof.
  induction t1 as [|c t1 IH]; intros [|d t2] s1 s2 H1 H2 B1 B2; simpl.
  - done.
  - intros ->. apply all_alpha_cons in H2 as [H2 _]. simpl in B1. congruence.
  - intros <-. apply all_alpha_cons in H1 as [H1 _]. simpl in B2. congruence.
  - intros [= -> Heq]. apply all_alpha_cons in H1 as [_ H1].
    apply all_alpha_cons in H2 as [_ H2].
    destruct (IH t2 s1 s2) as [-> ->]; auto.
Qed.

Lemma append_head_alpha t s c s' :
  t ≠ EmptyString → all_alpha t → t +:+ s = String c s' → is_alpha c = true.
Proof.
  destruct t as [|d t]; [done|]. simpl. intros _ [? _]%all_alpha_cons [= <- _].
  done.
Qed.

Lemma Runs_functional s ts : Runs s ts → ∀ ts', Runs s ts' → ts = ts'.
Proof.
  induction 1 as [|c s ts Hc _ IH|t s ts Ht Ha Hb _ IH]; intros ts' H'.
  - remember EmptyString as u eqn:Hu.
    destruct H' as [|c' s' ts'' Hc' Hr|t' s' ts'' Ht' Ha' Hb' Hr];
      [done|done|].
    by apply append_nonempty_l in Hu.
  - remember (String c s) as u eqn:Hu.
    destruct H' as [|c' s' ts'' Hc' Hr|t' s' ts'' Ht' Ha' Hb' Hr]; [done| |].
    + injection Hu as -> ->. by apply IH.
    + apply append_head_alpha in Hu; [congruence|done..].
  - remember (t +:+ s) as u eqn:Hu.
    destruct H' as [|c' s' ts'' Hc' Hr|t' s' ts'' Ht' Ha' Hb' Hr].
    + symmetry in Hu. by apply append_nonempty_l in Hu.
    + symmetry in Hu. apply append_head_alpha in Hu; [congruence|done..].
    + destruct (run_split t' t s' s) as [-> ->]; auto.
      f_equal. by apply IH.
Qed.

Lemma findall_alpha_runs s ts : Runs s ts ↔ ts = findall_alpha s.
Proof.
  pose proof (findall_alpha_from_runs s EmptyString all_alpha_empty) as H.
  simpl in H. split.
  - intros H'. by apply (Runs_functional s).
  - by intros ->.
Qed.
End runs.

(** *** Counting *)

Lemma StronglySorted_impl_elem {A} (R R' : relation A) (l : list A) :
  (∀ a b, a ∈ l → b ∈ l → R a b → R' a b) →
  StronglySorted R l → StronglySorted R' l.
Proof.
  intros HR Hs. induction Hs as [|a l Hs IH Hall]; constructor.
  - apply IH. intros b c Hb Hc. apply HR; by right.
  - rewrite Forall_forall in Hall. apply Forall_forall. intros b Hb.
    apply HR; [by left|by right|by apply Hall].
Qed.

Section counting.
Implicit Types (w v : string) (T : list string) (C : list (string * nat)).

Lemma occurrences_snoc w T v :
  occurrences w (T ++ [v])
  = occurrences w T + (if String.eqb v w then 1 else 0).
Proof. induction T as [|u T IH]; simpl; [lia|]. rewrite IH. lia. Qed.

Lemma occurrences_pos w T : 0 < occurrences w T ↔ w ∈ T.
Proof.
  induction T as [|u T IH]; simpl.
  - split; [lia|]. by intros ?%elem_of_nil.
  - rewrite elem_of_cons, <-IH. destruct (String.eqb_spec u w); split.
    + auto.
    + lia.
    + intros ?. right. lia.
    + intros [?|?]; [congruence|lia].
Qed.

Lemma first_index_lt w T : w ∈ T → first_index w T < length T.
Proof.
  induction T as [|u T IH]; simpl; [by intros ?%elem_of_nil|].
  destruct (String.eqb_spec u w); [lia|].
  intros [?|?]%elem_of_cons; [congruence|]. apply IH in H. lia.
Qed.

Lemma first_index_absent w T : w ∉ T → first_index w T = length T.
Proof.
  induction T as [|u T IH]; simpl; [done|].
  intros [? ?]%not_elem_of_cons. destruct (String.eqb_spec u w); [congruence|].
  by rewrite IH.
Qed.

Lemma first_index_snoc_old w T v :
  w ∈ T → first_index w (T ++ [v]) = first_index w T.
Proof.
  induction T as [|u T IH]; simpl; [by intros ?%elem_of_nil|].
  destruct (String.eqb_spec u w); [done|].
  intros [?|?]%elem_of_cons; [congruence|]. by rewrite IH.
Qed.

Lemma first_index_snoc_new w T :
  w ∉ T → first_index w (T ++ [w]) = length T.
Proof.
  induction T as [|u T IH]; simpl.
  - by rewrite String.eqb_refl.
  - intros [? ?]%not_elem_of_cons. destruct (String.eqb_spec u w); [congruence|].
    by rewrite IH.
Qed.

Lemma counter_add_new w C : w ∉ C.*1 → counter_add w C = C ++ [(w, 1)].
Proof.
  induction C as [|[v n] C IH]; csimpl; [done|].
  intros [? ?]%not_elem_of_cons. destruct (String.eqb_spec v w); [congruence|].
  by rewrite IH.
Qed.

Lemma counter_add_keys w C : w ∈ C.*1 → (counter_add w C).*1 = C.*1.
Proof.
  induction C as [|[v n] C IH]; csimpl; [by intros ?%elem_of_nil|].
  destruct (String.eqb_spec v w); [done|].
  intros [?|?]%elem_of_cons; [congruence|]. csimpl. by rewrite IH.
Qed.

Lemma counter_add_entry w C v n :
  NoDup C.*1 → (v, n) ∈ counter_add w C →
  (v ≠ w ∧ (v, n) ∈ C)
  ∨ (v = w ∧ ((n = 1 ∧ w ∉ C.*1) ∨ ∃ m, n = S m ∧ (w, m) ∈ C)).
Proof.
  induction C as [|[u k] C IH]; csimpl.
  - intros _ [= -> ->]%list_elem_of_singleton. right. split; [done|].
    left. split; [done|]. apply not_elem_of_nil.
  - intros [Hu HC]%NoDup_cons. destruct (String.eqb_spec u w) as [->|Hne].
    + intros [[= -> ->]|Hin]%elem_of_cons.
      * right. split; [done|]. right. exists k. split; [done|]. left.
      * left. split; [|by right]. intros ->. apply Hu.
        apply list_elem_of_fmap. by exists (w, n).
    + intros [[= -> ->]|Hin]%elem_of_cons.
      * left. split; [done|left].
      * destruct (IH HC Hin) as [[? ?]|[-> [[-> ?]|(m & -> & ?)]]].
        -- left. split; [done|by right].
        -- right. split; [done|]. left. split; [done|].
           by apply not_elem_of_cons.
        -- right. split; [done|]. right. exists m. split; [done|by right].
Qed.

Lemma Counter_snoc T w : Counter (T ++ [w]) = counter_add w (Counter T).
Proof. unfold Counter. by rewrite foldl_snoc. Qed.

(** The keys of the counter are the distinct tokens. *)
Lemma Counter_keys T : NoDup (Counter T).*1 ∧ ∀ w, w ∈ (Counter T).*1 ↔ w ∈ T.
Proof.
  induction T as [|v T [Hnd Hk]] using rev_ind.
  - split; [constructor|]. intros w. done.
  - rewrite Counter_snoc. destruct (decide (v ∈ (Counter T).*1)) as [Hin|Hout].
    + rewrite counter_add_keys by done. split; [done|].
      intros w. rewrite Hk, elem_of_app, list_elem_of_singleton.
      split; [auto|]. intros [?| ->]; [done|]. by apply Hk.
    + rewrite counter_add_new by done. rewrite fmap_app. simpl. split.
      * apply NoDup_app. split_and!; [done| |apply NoDup_singleton].
        intros w Hw ->%list_elem_of_singleton. done.
      * intros w. rewrite !elem_of_app, Hk. done.
Qed.

(** Each entry carries the number of occurrences of its key. *)
Lemma Counter_entry T w n : (w, n) ∈ Counter T → n = occurrences w T.
Proof.
  revert w n. induction T as [|v T IH] using rev_ind; intros w n.
  - by intros ?%elem_of_nil.
  - rewrite Counter_snoc, occurrences_snoc.
    destruct (Counter_keys T) as [Hnd Hk].
    intros [[Hne Hin]|[-> [[-> Hout]|(m & -> & Hin)]]]%counter_add_entry; [|..|done].
    + apply IH in Hin as ->. destruct (String.eqb_spec v w); [congruence|lia].
    + rewrite String.eqb_refl. rewrite Hk in Hout.
      assert (¬ 0 < occurrences v T) by by rewrite occurrences_pos. lia.
    + apply IH in Hin as ->. rewrite String.eqb_refl. lia.
Qed.

(** The keys are in the order of first occurrence. *)
Lemma Counter_order T :
  StronglySorted (λ a b, first_index a T < first_index b T) (Counter T).*1.
Proof.
  induction T as [|v T IH] using rev_ind; [constructor|].
  destruct (Counter_keys T) as [Hnd Hk].
  assert (StronglySorted
    (λ a b, first_index a (T ++ [v]) < first_index b (T ++ [v]))
    (Counter T).*1) as IH'.
  { eapply StronglySorted_impl_elem; [|exact IH]. simpl.
    intros a b Ha Hb. rewrite !first_index_snoc_old; [done|by apply Hk..]. }
  rewrite Counter_snoc. destruct (decide (v ∈ (Counter T).*1)) as [Hin|Hout].
  - by rewrite counter_add_keys.
  - rewrite counter_add_new by done. rewrite fmap_app. simpl.
    apply StronglySorted_app_2; [|done|repeat constructor].
    intros a b Ha ->%list_elem_of_singleton.
    rewrite Hk in Ha, Hout.
    rewrite first_index_snoc_old, first_index_snoc_new by done.
    by apply first_index_lt.
Qed.
End counting.

(** *** The stable descending sort *)

Section stable_sort.
Context (before : relation (string * nat)).
Implicit Types (x y : string * nat) (l : list (string * nat)).

Lemma insert_desc_perm x l : insert_desc x l ≡ₚ x :: l.
Proof.
  induction l as [|y l IH]; simpl; [done|].
  destruct (x.2 <? y.2); [|done]. rewrite IH. apply Permutation_swap.
Qed.

Lemma sorted_desc_perm l : sorted_desc l ≡ₚ l.
Proof.
  induction l as [|x l IH]; simpl; [done|].
  by rewrite insert_desc_perm, IH.
Qed.

Lemma insert_desc_sorted x l :
  StronglySorted (count_desc_then before) l →
  Forall (before x) l →
  StronglySorted (count_desc_then before) (insert_desc x l).
Proof.
  induction 1 as [|y l Hs IH Hy]; intros Hx; simpl; [repeat constructor|].
  apply Forall_cons in Hx as [Hxy Hx].
  destruct (x.2 <? y.2) eqn:E.
  - apply Nat.ltb_lt in E. constructor; [by apply IH|].
    rewrite insert_desc_perm. constructor; [by left|done].
  - apply Nat.ltb_ge in E. constructor; [by constructor|].
    constructor.
    + destruct (decide (y.2 = x.2)); [right; by split|left; lia].
    + rewrite Forall_forall in Hy, Hx. apply Forall_forall. intros z Hz.
      specialize (Hy z Hz). specialize (Hx z Hz).
      destruct (decide (z.2 = x.2)); [right; by split|left].
      destruct Hy as [?|[? _]]; lia.
Qed.

Lemma sorted_desc_sorted l :
  StronglySorted before l →
  StronglySorted (count_desc_then before) (sorted_desc l).
Proof.
  induction 1 as [|x l Hs IH Hx]; simpl; [constructor|].
  apply insert_desc_sorted; [done|]. by rewrite sorted_desc_perm.
Qed.
End stable_sort.

(** *** Ranking *)

Lemma StronglySorted_fmap_inv {A B} (f : A → B) (R : relation B) (l : list A) :
  StronglySorted R (f <$> l) → StronglySorted (λ x y, R (f x) (f y)) l.
Proof.
  induction l as [|x l IH]; csimpl; [constructor|].
  intros [Hx Hs]%StronglySorted_cons. constructor; [by apply IH|].
  rewrite Forall_fmap in Hx. exact Hx.
Qed.

Section ranking.
Implicit Types (w v : string) (T : list string).

(** All distinct tokens, most frequent first, ties in order of first
    occurrence. *)
Lemma ranking_sorted T :
  StronglySorted (ranks_before T) (sorted_desc (Counter T)).*1.
Proof.
  apply (StronglySorted_fmap fst (λ x y, ranks_before T x.1 y.1));
    [done|].
  eapply StronglySorted_impl_elem;
    [|apply (sorted_desc_sorted
               (λ x y, first_index x.1 T < first_index y.1 T))].
  - intros [a n] [b m] Ha Hb. rewrite sorted_desc_perm in Ha, Hb.
    apply Counter_entry in Ha as ->. apply Counter_entry in Hb as ->.
    unfold count_desc_then, ranks_before. simpl. done.
  - apply (StronglySorted_fmap_inv fst
             (λ a b, first_index a T < first_index b T)).
    apply Counter_order.
Qed.

Lemma ranking_perm T : (sorted_desc (Counter T)).*1 ≡ₚ (Counter T).*1.
Proof. apply fmap_Permutation, sorted_desc_perm. Qed.

Lemma ranking_NoDup T : NoDup (sorted_desc (Counter T)).*1.
Proof. rewrite ranking_perm. apply Counter_keys. Qed.

Lemma ranking_elem T w : w ∈ (sorted_desc (Counter T)).*1 ↔ w ∈ T.
Proof. rewrite ranking_perm. apply Counter_keys. Qed.

Lemma top_keywords_unfold text k :
  top_keywords_from_abstract text k
  = take (Z.to_nat k) (sorted_desc (Counter (tokenize_words text))).*1.
Proof.
  unfold top_keywords_from_abstract, most_common. rewrite fmap_take.
  destruct (tokenize_words text); [|done]. simpl. by rewrite take_nil.
Qed.

Lemma List_filter_Prop {A} (f : A → bool) (P : A → Prop)
    `{∀ x, Decision (P x)} (l : list A) :
  (∀ x, f x = true ↔ P x) → List.filter f l = filter P l.
Proof.
  intros Hf. induction l as [|x l IH]; simpl; [done|].
  rewrite filter_cons, IH. destruct (f x) eqn:E.
  - rewrite decide_True; [done|]. by apply Hf.
  - rewrite decide_False; [done|]. rewrite <-Hf. congruence.
Qed.

Lemma List_filter_none {A} (f : A → bool) (l : list A) :
  (∀ x, x ∈ l → f x = false) → List.filter f l = [].
Proof.
  induction l as [|x l IH]; simpl; [done|]. intros Hf.
  rewrite (Hf x) by left. apply IH. intros y Hy. apply Hf. by right.
Qed.

Lemma kept_token_spec t :
  kept_token t = true ↔ (t ∉ STOPWORDS) ∧ 2 < String.length t.
Proof.
  unfold kept_token. rewrite andb_true_iff, negb_true_iff, Nat.ltb_lt.
  by rewrite bool_decide_eq_false.
Qed.
End ranking.

(** C4.  Keyword extraction lowercases the text, takes its maximal runs of
    letters (the class [a-zA-Z]) as tokens, drops the tokens of length at most
    two and the stopwords, and returns at most [k] distinct tokens, the most
    frequent first, ties in order of first occurrence; none of the tokens left
    out is ranked before a returned one.  A text without letter runs, or whose
    runs are all stopwords, gives the empty sequence. *)
Theorem keyword_extraction (text : option string) (k : Z) :
  let tokens := tokenize_words text in
  let r := top_keywords_from_abstract text k in
  (∃ runs,
      (∀ ts, Runs (Py.lower (Py.or_empty text)) ts ↔ ts = runs)
      ∧ tokens = filter (λ t, (t ∉ STOPWORDS) ∧ 2 < String.length t) runs
      ∧ ((∀ t, t ∈ runs → t ∈ STOPWORDS) → r = []))
  ∧ (Z.of_nat (length r) ≤ Z.max 0 k)%Z
  ∧ NoDup r
  ∧ (∀ w, w ∈ r → w ∈ tokens)
  ∧ StronglySorted (ranks_before tokens) r
  ∧ (∀ w, w ∈ tokens → w ∉ r →
       length r = Z.to_nat k ∧ ∀ v, v ∈ r → ranks_before tokens v w).
Proof.
  intros tokens r.
  assert (r = take (Z.to_nat k) (sorted_desc (Counter tokens)).*1) as Hr
    by apply top_keywords_unfold.
  set (L := (sorted_desc (Counter tokens)).*1) in Hr.
  assert (StronglySorted (ranks_before tokens) (take (Z.to_nat k) L
                                                ++ drop (Z.to_nat k) L)) as HL
    by (rewrite take_drop; apply ranking_sorted).
  split_and!.
  - exists (findall_alpha (Py.lower (Py.or_empty text))). split_and!.
    + intros ts. apply findall_alpha_runs.
    + apply List_filter_Prop, kept_token_spec.
    + intros Hstop. unfold r, top_keywords_from_abstract.
      fold tokens. replace tokens with (@nil string); [done|].
      symmetry. unfold tokens, tokenize_words.
      apply List_filter_none. intros t Ht.
      apply not_true_is_false. intros [Hk _]%kept_token_spec.
      apply Hk, Hstop, Ht.
  - rewrite Hr, length_take. lia.
  - rewrite Hr. eapply sublist_NoDup; [apply ranking_NoDup|apply sublist_take].
  - intros w. rewrite Hr. intros Hw. apply (ranking_elem tokens).
    change (w ∈ L). rewrite <-(take_drop (Z.to_nat k) L).
    apply elem_of_app. by left.
  - rewrite Hr. by apply StronglySorted_app_1_l in HL.
  - intros w Hw Hout. rewrite Hr in Hout |- *.
    apply (ranking_elem tokens) in Hw. change (w ∈ L) in Hw.
    rewrite <-(take_drop (Z.to_nat k) L) in Hw.
    apply elem_of_app in Hw as [?|Hw]; [done|]. split.
    + apply length_take_le.
      destruct (decide (Z.to_nat k ≤ length L)) as [?|Hlt]; [done|].
      rewrite drop_ge in Hw by lia. by apply elem_of_nil in Hw.
    + intros v Hv. by apply (StronglySorted_app_1_elem_of _ _ _ _ _ HL).
Qed.

(** ** Dictionaries *)

Section dict_facts.
Implicit Types (d paper base : dict) (k : string) (v : value).

Lemma kept_value_str s : kept_value (VStr s) = true ↔ s ≠ "".
Proof.
  simpl. rewrite negb_true_iff. split.
  - intros H ->. done.
  - intros H. by apply String.eqb_neq.
Qed.

Lemma compact_lookup_Some d k v :
  compact d !! k = Some v ↔ d !! k = Some v ∧ kept_value v = true.
Proof. unfold compact. by rewrite map_lookup_filter_Some. Qed.

Lemma compact_lookup_None d k : d !! k = None → compact d !! k = None.
Proof.
  intros H. unfold compact. apply map_lookup_filter_None. left. done.
Qed.

Lemma compact_lookup_dropped d k v :
  d !! k = Some v → kept_value v = false → compact d !! k = None.
Proof.
  intros Hk Hv. unfold compact. apply map_lookup_filter_None. right.
  intros v' Hv'. simpl. congruence.
Qed.

Lemma compact_lookup_kept d k v :
  d !! k = Some v → kept_value v = true → compact d !! k = Some v.
Proof. intros. by apply compact_lookup_Some. Qed.

(** Under a name the paper does not use, an item holds what the builder
    put there. *)
Lemma item_lookup_fresh paper base k v :
  paper !! k = None →
  (compact (paper ∪ base) !! k = Some v
   ↔ base !! k = Some v ∧ kept_value v = true).
Proof.
  intros Hk. rewrite compact_lookup_Some, lookup_union_r by done. done.
Qed.

Lemma compact_nonempty d k v :
  d !! k = Some v → kept_value v = true → compact d ≠ ∅.
Proof.
  intros Hk Hv Hemp. pose proof (compact_lookup_kept d k v Hk Hv) as H.
  rewrite Hemp in H. by rewrite lookup_empty in H.
Qed.
End dict_facts.

(** ** Item builders *)

Section builders.
Context (paper : dict) (id : string).
Hypothesis Hid : paper !! "arxiv_id" = Some (VStr id).
Hypothesis Hfresh : Forall (λ k, paper !! k = None) RESERVED.

Lemma subscript_arxiv_id : subscript_str paper "arxiv_id" = Ok id.
Proof. unfold subscript_str. by rewrite Hid. Qed.

Lemma reserved_fresh k : k ∈ RESERVED → paper !! k = None.
Proof. intros Hk. rewrite Forall_forall in Hfresh. by apply Hfresh. Qed.

Lemma built_item_shape (base : dict) kind pk sk :
  base !! "item_type" = Some (VStr kind) → kind ≠ "" →
  base !! "PK" = Some (VStr pk) → pk ≠ "" →
  base !! "SK" = Some (VStr sk) → sk ≠ "" →
  map_Forall (λ _ v, ∃ s, v = VStr s) base →
  item_shape kind pk sk (compact (paper ∪ base)).
Proof.
  intros Hkind ? Hpk ? Hsk ? Hstr. unfold item_shape. split_and!.
  - apply item_lookup_fresh; [apply reserved_fresh; set_solver|].
    split; [done|]. by apply kept_value_str.
  - apply item_lookup_fresh; [apply reserved_fresh; set_solver|].
    split; [done|]. by apply kept_value_str.
  - apply item_lookup_fresh; [apply reserved_fresh; set_solver|].
    split; [done|]. by apply kept_value_str.
  - apply Forall_forall. intros k Hk v Hv.
    apply item_lookup_fresh in Hv as [Hv Hkept].
    2:{ apply reserved_fresh. by right. }
    destruct (Hstr k v Hv) as [s ->]. exists s. split; [done|].
    by apply kept_value_str.
Qed.

Lemma date_or_sentinel_nonempty pub : date_or_sentinel pub ≠ "".
Proof. unfold date_or_sentinel. by destruct pub. Qed.

Lemma sort_key_nonempty pub : date_or_sentinel pub +:+ "#" +:+ id ≠ "".
Proof. by apply append_nonempty_l, date_or_sentinel_nonempty. Qed.

Ltac solve_base :=
  repeat (apply map_Forall_insert_2; [by eexists|]); apply map_Forall_empty.

Lemma make_master_item_shape pub :
  ∃ it, make_master_item paper pub = Ok it
        ∧ item_shape "MASTER" ("PAPER#" +:+ id) "MASTER" it.
Proof.
  unfold make_master_item. rewrite subscript_arxiv_id. simpl.
  eexists. split; [done|].
  apply built_item_shape; [by simplify_map_eq|done..|solve_base].
Qed.

Lemma make_category_item_shape c pub :
  ∃ it, make_category_item paper c pub = Ok it
        ∧ item_shape "CATEGORY" ("CATEGORY#" +:+ c)
            (date_or_sentinel pub +:+ "#" +:+ id) it.
Proof.
  unfold make_category_item. rewrite subscript_arxiv_id. simpl.
  eexists. split; [done|].
  apply built_item_shape;
    [by simplify_map_eq|done|by simplify_map_eq|done|by simplify_map_eq
    |apply sort_key_nonempty|solve_base].
Qed.

Lemma make_author_item_shape a pub :
  a ≠ "" →
  ∃ it, make_author_item paper a pub = Ok (Some it)
        ∧ item_shape "AUTHOR" ("AUTHORITEM#" +:+ a +:+ "#" +:+ id)
            (date_or_sentinel pub +:+ "#" +:+ id) it.
Proof.
  intros Ha%truthy_true. unfold make_author_item.
  rewrite Ha, subscript_arxiv_id. simpl.
  eexists. split; [done|].
  apply built_item_shape;
    [by simplify_map_eq|done|by simplify_map_eq|done|by simplify_map_eq
    |apply sort_key_nonempty|solve_base].
Qed.

Lemma make_keyword_item_shape kw pub :
  kw ≠ "" →
  ∃ it, make_keyword_item paper kw pub = Ok (Some it)
        ∧ item_shape "KEYWORD"
            ("KEYWORDITEM#" +:+ Py.lower kw +:+ "#" +:+ id)
            (date_or_sentinel pub +:+ "#" +:+ id) it.
Proof.
  intros Ha%truthy_true. unfold make_keyword_item.
  rewrite Ha, subscript_arxiv_id. simpl.
  eexists. split; [done|].
  apply built_item_shape;
    [by simplify_map_eq|done|by simplify_map_eq|done|by simplify_map_eq
    |apply sort_key_nonempty|solve_base].
Qed.
End builders.

Lemma make_author_item_empty paper pub : make_author_item paper "" pub = Ok None.
Proof. done. Qed.

Lemma make_keyword_item_empty paper pub : make_keyword_item paper "" pub = Ok None.
Proof. done. Qed.

(** ** Loops *)

Section loops.
Context {A S : Type}.
Implicit Types (body : S → A → result S) (l : list A).

Lemma for_each_app body st l1 l2 :
  for_each body st (l1 ++ l2)
  = st' ← for_each body st l1; for_each body st' l2.
Proof.
  revert st. induction l1 as [|x l1 IH]; intros st; simpl; [done|].
  destruct (body st x) as [st'|e]; simpl; [apply IH|done].
Qed.

Lemma for_each_ext body1 body2 st l :
  (∀ st x, x ∈ l → body1 st x = body2 st x) →
  for_each body1 st l = for_each body2 st l.
Proof.
  revert st. induction l as [|x l IH]; intros st Hb; simpl; [done|].
  rewrite Hb by left. destruct (body2 st x); simpl; [|done].
  apply IH. intros st' y Hy. apply Hb. by right.
Qed.
End loops.

(** A loop that appends one item per element and counts it. *)
Lemma for_each_appends {A} (kind : string) (P : A → dict → Prop)
    (body : list dict * gmap string nat → A → result (list dict * gmap string nat))
    (l : list A) :
  (∀ x, x ∈ l →
     ∃ d, P x d ∧ ∀ acc, body acc x = Ok (acc.1 ++ [d], incr kind acc.2)) →
  ∃ ds, Forall2 P l ds
        ∧ ∀ acc, for_each body acc l
                 = Ok (acc.1 ++ ds, Nat.iter (length l) (incr kind) acc.2).
Proof.
  induction l as [|x l IH]; intros Hb.
  - exists []. split; [constructor|]. intros [items c]. simpl.
    by rewrite app_nil_r.
  - destruct (Hb x) as (d & HP & Hd); [left|].
    destruct IH as (ds & HF & Hds); [intros y Hy; apply Hb; by right|].
    exists (d :: ds). split; [by constructor|]. intros acc.
    cbn [for_each]. rewrite Hd. cbn [mbind result_bind]. rewrite Hds.
    cbn [fst snd length]. rewrite <-app_assoc, Nat.iter_succ_r. done.
Qed.

(** ** Normalisation *)

Section normalisation.
Implicit Types (p : raw_paper) (n : normalized).

Lemma strip_empty : Py.strip "" = "".
Proof. done. Qed.

Lemma nonblank_strings_nonempty l s : s ∈ nonblank_strings l → s ≠ "".
Proof.
  unfold nonblank_strings. intros (a & Ha & Hs)%list_elem_of_omap ->.
  destruct a as [s|]; [|done]. destruct (Py.truthy (Py.strip s)) eqn:E; [|done].
  injection Hs as ->. done.
Qed.

Lemma nonblank_strings_length l :
  length (nonblank_strings l) ≤ length (default [] l).
Proof.
  unfold nonblank_strings. induction (default [] l) as [|a l' IH]; csimpl; [done|].
  destruct a as [s|]; [destruct (Py.truthy (Py.strip s))|]; simpl; lia.
Qed.

Lemma normalize_None p :
  normalize p = None ↔ trimmed_id p = "" ∨ surviving_categories p = [].
Proof.
  unfold normalize, trimmed_id, surviving_categories.
  destruct (Py.truthy _) eqn:Hid; cbn [negb].
  - apply truthy_true in Hid.
    destruct (nonblank_strings (r_categories p)); split; try done.
    + by right.
    + intros [?|?]; done.
  - apply truthy_false in Hid. split; [by left|done].
Qed.

Lemma top_keywords_elem text k w :
  w ∈ top_keywords_from_abstract text k → w ∈ tokenize_words text.
Proof.
  rewrite top_keywords_unfold. intros Hw. apply ranking_elem.
  rewrite <-(take_drop (Z.to_nat k)). apply elem_of_app. by left.
Qed.

Lemma top_keywords_length text k :
  length (top_keywords_from_abstract text k) ≤ Z.to_nat k.
Proof. rewrite top_keywords_unfold, length_take. lia. Qed.

Lemma tokenize_words_nonempty text w : w ∈ tokenize_words text → w ≠ "".
Proof.
  unfold tokenize_words. rewrite list_elem_of_In, filter_In.
  intros [_ [_ Hlen]%kept_token_spec] ->. simpl in Hlen. lia.
Qed.

Lemma normalize_Some p n :
  normalize p = Some n →
  trimmed_id p ≠ ""
  ∧ n_categories n = surviving_categories p
  ∧ n_authors n = surviving_authors p
  ∧ n_pub_date n = published_date p
  ∧ n_paper n !! "arxiv_id" = Some (VStr (trimmed_id p))
  ∧ Forall (λ k, n_paper n !! k = None) RESERVED
  ∧ keywords_of (n_paper n) = Ok (extracted_keywords p).
Proof.
  unfold normalize.
  fold (trimmed_id p) (surviving_categories p) (surviving_authors p)
       (published_date p).
  destruct (Py.truthy (trimmed_id p)) eqn:Hid; cbn [negb]; [|done].
  apply truthy_true in Hid.
  destruct (surviving_categories p) as [|c cs] eqn:Hc; [done|].
  intros [= <-]. cbn [n_paper n_categories n_authors n_pub_date].
  split_and!; try done.
  - apply compact_lookup_kept; [by simplify_map_eq|by apply kept_value_str].
  - unfold RESERVED, KEY_ATTRIBUTES, INDEX_KEY_ATTRIBUTES.
    repeat constructor; apply compact_lookup_None; by simplify_map_eq.
  - unfold keywords_of. fold (extracted_keywords p).
    destruct (extracted_keywords p) as [|w ws] eqn:Hk.
    + erewrite compact_lookup_dropped; [done|by simplify_map_eq|done].
    + rewrite (compact_lookup_kept _ _ (VList (w :: ws)));
        [done|by simplify_map_eq|done].
Qed.
End normalisation.

(** ** Writing items *)

Section writing.
Implicit Types (d it : dict) (t : table) (items : list dict).

Lemma item_shape_keys kind pk sk d :
  item_shape kind pk sk d → pk ≠ "" ∧ sk ≠ "" ∧ key_of d = (pk, sk).
Proof.
  intros (_ & Hpk & Hsk & Hall). rewrite Forall_forall in Hall.
  assert ("PK" ∈ KEY_ATTRIBUTES) as H1 by by left.
  assert ("SK" ∈ KEY_ATTRIBUTES) as H2 by by right; left.
  destruct (Hall "PK" H1 _ Hpk) as (? & [= <-] & ?).
  destruct (Hall "SK" H2 _ Hsk) as (? & [= <-] & ?).
  split_and!; [done..|]. unfold key_of, str_at. by rewrite Hpk, Hsk.
Qed.

Lemma item_shape_nonempty kind pk sk d : item_shape kind pk sk d → d ≠ ∅.
Proof. intros (_ & Hpk & _) ->. by rewrite lookup_empty in Hpk. Qed.

Lemma item_shape_not_skipped kind pk sk d :
  item_shape kind pk sk d → skipped_by_writer (Some d) = false.
Proof.
  intros Hd. destruct (item_shape_keys _ _ _ _ Hd) as (Hp & Hs & _).
  destruct Hd as (_ & Hpk & Hsk & _).
  unfold skipped_by_writer, get_truthy. rewrite Hpk, Hsk. simpl.
  apply truthy_true in Hp, Hs. by rewrite Hp, Hs.
Qed.

Lemma item_shape_index_keys kind pk sk d k :
  item_shape kind pk sk d → k ∈ INDEX_KEY_ATTRIBUTES → index_key_ok d k = true.
Proof.
  intros (_ & _ & _ & Hall) Hk. rewrite Forall_forall in Hall.
  assert (k ∈ KEY_ATTRIBUTES) as Hk' by by do 2 right.
  specialize (Hall k Hk').
  unfold index_key_ok. destruct (d !! k) as [v|] eqn:E; [|done].
  destruct (Hall v E) as (s & -> & Hs). by apply truthy_true.
Qed.

Lemma put_item_shape kind pk sk d t :
  item_shape kind pk sk d → put_item t d = Ok (<[key_of d := d]> t).
Proof.
  intros Hd. destruct (item_shape_keys _ _ _ _ Hd) as (Hp & Hs & ->).
  unfold put_item. destruct Hd as (Hkind & Hpk & Hsk & Hall).
  rewrite Hpk, Hsk. apply truthy_true in Hp, Hs. rewrite Hp, Hs.
  assert (forallb (index_key_ok d) INDEX_KEY_ATTRIBUTES = true) as ->; [|done].
  apply forallb_forall. intros k Hk%list_elem_of_In.
  by apply (item_shape_index_keys kind pk sk).
Qed.

Lemma batch_write_shaped t items :
  Forall (λ d, ∃ kind pk sk, item_shape kind pk sk d) items →
  batch_write t (Some <$> items) = Ok (write_all t items)
  ∧ submitted (Some <$> items) = items.
Proof.
  intros Hall. revert t. induction Hall as [|d items (kind & pk & sk & Hd) _ IH];
    intros t; [done|].
  destruct (IH (<[key_of d := d]> t)) as [IHw IHs].
  pose proof (item_shape_not_skipped _ _ _ _ Hd) as Hskip.
  split.
  - unfold batch_write. csimpl. unfold skipped_by_writer in Hskip.
    rewrite Hskip. rewrite (put_item_shape kind pk sk) by done. simpl.
    apply IHw.
  - unfold submitted in *. rewrite fmap_cons.
    cbn -[skipped_by_writer]. rewrite Hskip. by rewrite IHs.
Qed.

Lemma batch_write_submitted t (l : list (option dict)) :
  batch_write t l = for_each put_item t (submitted l).
Proof.
  unfold batch_write, submitted. revert t.
  induction l as [|[d|] l IH]; intros t; csimpl; [done| |apply IH].
  destruct (negb (get_truthy d "PK") || negb (get_truthy d "SK")); simpl.
  - apply IH.
  - destruct (put_item t d); simpl; [apply IH|done].
Qed.

Lemma elem_of_submitted (l : list (option dict)) it :
  it ∈ submitted l
  ↔ Some it ∈ l ∧ get_truthy it "PK" = true ∧ get_truthy it "SK" = true.
Proof.
  unfold submitted. rewrite list_elem_of_omap. split.
  - intros ([d|] & Hin & Hd); simpl in Hd; [|done].
    destruct (negb (get_truthy d "PK") || negb (get_truthy d "SK")) eqn:E;
      [done|].
    injection Hd as ->. apply orb_false_iff in E as [E1 E2].
    apply negb_false_iff in E1, E2. done.
  - intros (Hin & H1 & H2). exists (Some it). split; [done|]. simpl.
    by rewrite H1, H2.
Qed.

(** What a key pair holds after a sequence of puts. *)
Lemma write_all_lookup items t k :
  write_all t items !! k
  = match last (filter (λ d, key_of d = k) items) with
    | Some d => Some d
    | None => t !! k
    end.
Proof.
  unfold write_all. revert t.
  induction items as [|d items IH]; intros t; simpl; [done|].
  rewrite IH, filter_cons. destruct (decide (key_of d = k)) as [<-|Hne].
  - rewrite last_cons.
    destruct (last (filter _ items)); [done|]. by rewrite lookup_insert_eq.
  - destruct (last (filter _ items)); [done|]. by rewrite lookup_insert_ne.
Qed.

Lemma write_all_app t l1 l2 :
  write_all t (l1 ++ l2) = write_all (write_all t l1) l2.
Proof. unfold write_all. by rewrite foldl_app. Qed.

(** Writing the same items again changes nothing. *)
Lemma write_all_idempotent t items :
  write_all (write_all t items) items = write_all t items.
Proof.
  apply map_eq. intros k. rewrite write_all_lookup.
  rewrite (write_all_lookup items t).
  by destruct (last (filter _ items)).
Qed.
End writing.

(** ** The items of one paper *)

Section paper_items.
Implicit Types (p : raw_paper) (n : normalized).

Lemma emit_shaped kind' kind pk sk d acc :
  item_shape kind pk sk d →
  emit kind' (Some d) acc = (acc.1 ++ [d], incr kind' acc.2).
Proof.
  intros Hd%item_shape_nonempty. unfold emit, item_truthy.
  by rewrite bool_decide_eq_false_2.
Qed.

Lemma date_or_sentinel_ymd v : date_or_sentinel (ymd v) = ymd v.
Proof.
  unfold date_or_sentinel. pose proof (ymd_length v) as H.
  by destruct (ymd v).
Qed.

Lemma build_items_shape paper id cats auths pub kws :
  paper !! "arxiv_id" = Some (VStr id) →
  Forall (λ k, paper !! k = None) RESERVED →
  Forall (λ a, a ≠ "") auths →
  keywords_of paper = Ok kws →
  Forall (λ k, k ≠ "") kws →
  ∃ m cs aus ks,
    item_shape "MASTER" ("PAPER#" +:+ id) "MASTER" m
    ∧ Forall2 (λ c d, item_shape "CATEGORY" ("CATEGORY#" +:+ c)
                        (date_or_sentinel pub +:+ "#" +:+ id) d) cats cs
    ∧ Forall2 (λ a d, item_shape "AUTHOR"
                        ("AUTHORITEM#" +:+ a +:+ "#" +:+ id)
                        (date_or_sentinel pub +:+ "#" +:+ id) d) auths aus
    ∧ Forall2 (λ k d, item_shape "KEYWORD"
                        ("KEYWORDITEM#" +:+ Py.lower k +:+ "#" +:+ id)
                        (date_or_sentinel pub +:+ "#" +:+ id) d) kws ks
    ∧ ∀ counts,
        build_items paper cats auths pub counts
        = Ok (m :: cs ++ aus ++ ks,
              Nat.iter (length kws) (incr "keyword")
                (Nat.iter (length auths) (incr "author")
                   (Nat.iter (length cats) (incr "category")
                      (incr "master" counts)))).
Proof.
  intros Hid Hfresh Hauths Hkws Hkw.
  destruct (make_master_item_shape paper id Hid Hfresh pub) as (m & Hm & Hms).
  edestruct (for_each_appends "category"
    (λ c d, item_shape "CATEGORY" ("CATEGORY#" +:+ c)
              (date_or_sentinel pub +:+ "#" +:+ id) d)
    (λ acc c, it ← make_category_item paper c pub;
              Ok (emit "category" (Some it) acc)) cats)
    as (cs & Hcs & Hcloop).
  { intros c _.
    destruct (make_category_item_shape paper id Hid Hfresh c pub)
      as (d & Hd & Hds).
    exists d. split; [done|]. intros acc. rewrite Hd. cbn [mbind result_bind].
    by erewrite emit_shaped. }
  edestruct (for_each_appends "author"
    (λ a d, item_shape "AUTHOR" ("AUTHORITEM#" +:+ a +:+ "#" +:+ id)
              (date_or_sentinel pub +:+ "#" +:+ id) d)
    (λ acc a, it ← make_author_item paper a pub;
              Ok (emit "author" it acc)) auths)
    as (aus & Haus & Haloop).
  { intros a Ha. rewrite Forall_forall in Hauths.
    destruct (make_author_item_shape paper id Hid Hfresh a pub (Hauths a Ha))
      as (d & Hd & Hds).
    exists d. split; [done|]. intros acc. rewrite Hd. cbn [mbind result_bind].
    by erewrite emit_shaped. }
  edestruct (for_each_appends "keyword"
    (λ k d, item_shape "KEYWORD" ("KEYWORDITEM#" +:+ Py.lower k +:+ "#" +:+ id)
              (date_or_sentinel pub +:+ "#" +:+ id) d)
    (λ acc kw, it ← make_keyword_item paper kw pub;
               Ok (emit "keyword" it acc)) kws)
    as (ks & Hks & Hkloop).
  { intros k Hk. rewrite Forall_forall in Hkw.
    destruct (make_keyword_item_shape paper id Hid Hfresh k pub (Hkw k Hk))
      as (d & Hd & Hds).
    exists d. split; [done|]. intros acc. rewrite Hd. cbn [mbind result_bind].
    by erewrite emit_shaped. }
  exists m, cs, aus, ks. split_and!; [done..|].
  intros counts. unfold build_items. rewrite Hm. cbn [mbind result_bind].
  rewrite Hcloop. cbn [mbind result_bind]. rewrite Haloop.
  cbn [mbind result_bind]. rewrite Hkws. cbn [mbind result_bind].
  rewrite Hkloop. cbn [fst snd]. by rewrite <-!app_assoc.
Qed.

Lemma extracted_keywords_nonempty p :
  Forall (λ k, k ≠ "") (extracted_keywords p).
Proof.
  apply Forall_forall. intros k Hk%top_keywords_elem.
  by apply tokenize_words_nonempty in Hk.
Qed.

(** The items of a paper that is not skipped: a master item, then one item
    per category, per author and per keyword, each under its key pair. *)
Lemma normalized_items p n :
  normalize p = Some n →
  ∃ m cs aus ks,
    item_shape "MASTER" ("PAPER#" +:+ trimmed_id p) "MASTER" m
    ∧ Forall2 (λ c d, item_shape "CATEGORY" ("CATEGORY#" +:+ c)
                        (dated_sort_key p) d) (surviving_categories p) cs
    ∧ Forall2 (λ a d, item_shape "AUTHOR"
                        ("AUTHORITEM#" +:+ a +:+ "#" +:+ trimmed_id p)
                        (dated_sort_key p) d) (surviving_authors p) aus
    ∧ Forall2 (λ k d, item_shape "KEYWORD"
                        ("KEYWORDITEM#" +:+ Py.lower k +:+ "#" +:+ trimmed_id p)
                        (dated_sort_key p) d) (extracted_keywords p) ks
    ∧ ∀ counts,
        build_items (n_paper n) (n_categories n) (n_authors n)
          (n_pub_date n) counts
        = Ok (m :: cs ++ aus ++ ks,
              Nat.iter (length (extracted_keywords p)) (incr "keyword")
                (Nat.iter (length (surviving_authors p)) (incr "author")
                   (Nat.iter (length (surviving_categories p))
                      (incr "category") (incr "master" counts)))).
Proof.
  intros (Hid & -> & -> & -> & Hpaper & Hfresh & Hkws)%normalize_Some.
  unfold dated_sort_key.
  replace (published_date p +:+ "#" +:+ trimmed_id p)
    with (date_or_sentinel (published_date p) +:+ "#" +:+ trimmed_id p)
    by (unfold published_date; by rewrite date_or_sentinel_ymd).
  apply build_items_shape; try done.
  - apply Forall_forall. intros a Ha. by apply nonblank_strings_nonempty in Ha.
  - apply extracted_keywords_nonempty.
Qed.
End paper_items.

(** ** One pass over the papers *)

Section pass.
Implicit Types (p : raw_paper) (st : load_state) (items : list dict).

Lemma shaped_items {A} kind (pk : A → string) sk (l : list A) ds :
  Forall2 (λ x d, item_shape kind (pk x) sk d) l ds →
  Forall (λ d, d !! "item_type" = Some (VStr kind)) ds
  ∧ Forall (λ d, ∃ kind pk sk, item_shape kind pk sk d) ds
  ∧ (λ d, d !! "PK") <$> ds = (λ x, Some (VStr (pk x))) <$> l
  ∧ length ds = length l.
Proof.
  induction 1 as [|x d l ds Hd _ (IH1 & IH2 & IH3 & IH4)]; [done|].
  split_and!.
  - constructor; [apply Hd|done].
  - constructor; [by exists kind, (pk x), sk|done].
  - csimpl. rewrite IH3. by destruct Hd as (_ & -> & _).
  - simpl. by rewrite IH4.
Qed.

Lemma of_kind_all kind items :
  Forall (λ d, d !! "item_type" = Some (VStr kind)) items →
  of_kind kind items = items.
Proof.
  unfold of_kind. induction 1 as [|d items Hd _ IH]; [done|].
  rewrite filter_cons, decide_True by done. by rewrite IH.
Qed.

Lemma of_kind_none kind kind' items :
  kind ≠ kind' →
  Forall (λ d, d !! "item_type" = Some (VStr kind')) items →
  of_kind kind items = [].
Proof.
  intros Hne. unfold of_kind. induction 1 as [|d items Hd _ IH]; [done|].
  rewrite filter_cons, decide_False; [done|]. rewrite Hd. congruence.
Qed.

Lemma of_kind_app kind l1 l2 :
  of_kind kind (l1 ++ l2) = of_kind kind l1 ++ of_kind kind l2.
Proof. apply filter_app. Qed.

Lemma generated_items_None p :
  normalize p = None → generated_items p = Ok None ∧ written p = [].
Proof. intros H. unfold written, generated_items. by rewrite H. Qed.

Lemma generated_items_Some p n :
  normalize p = Some n →
  ∃ items, generated_items p = Ok (Some items) ∧ written p = items
           ∧ Forall (λ d, ∃ kind pk sk, item_shape kind pk sk d) items.
Proof.
  intros Hn.
  destruct (normalized_items p n Hn)
    as (m & cs & aus & ks & Hm & Hcs & Haus & Hks & Hb).
  exists (m :: cs ++ aus ++ ks). unfold written, generated_items.
  rewrite Hn, Hb. split_and!; [done..|].
  apply shaped_items in Hcs as (_ & Hcs & _).
  apply shaped_items in Haus as (_ & Haus & _).
  apply shaped_items in Hks as (_ & Hks & _).
  constructor; [by eexists _, _, _|]. by rewrite !Forall_app.
Qed.

Lemma written_shaped p :
  Forall (λ d, ∃ kind pk sk, item_shape kind pk sk d) (written p).
Proof.
  destruct (normalize p) as [n|] eqn:Hn.
  - by destruct (generated_items_Some p n Hn) as (items & _ & -> & ?).
  - apply generated_items_None in Hn as [_ ->]. constructor.
Qed.

(** The step writes the items of the paper, whatever the state. *)
Lemma transform_step_writes st p :
  ∃ st', transform_step st p = Ok st'
         ∧ st_table st' = write_all (st_table st) (written p)
         ∧ (normalize p = None → st' = st).
Proof.
  unfold transform_step. destruct (normalize p) as [n|] eqn:Hn.
  - destruct (normalized_items p n Hn)
      as (m & cs & aus & ks & _ & _ & _ & _ & Hb).
    destruct (generated_items_Some p n Hn) as (items & Hg & Hw & Hall).
    unfold generated_items in Hg. rewrite Hn, Hb in Hg.
    injection Hg as <-. rewrite Hb. cbn [mbind result_bind].
    destruct (batch_write_shaped (st_table st) _ Hall) as [-> _].
    eexists. split; [done|]. rewrite Hw. done.
  - exists st. apply generated_items_None in Hn as [_ ->]. done.
Qed.

Lemma transform_and_write_from st papers :
  ∃ st', for_each transform_step st papers = Ok st'
         ∧ st_table st' = write_all (st_table st) (papers ≫= written).
Proof.
  revert st. induction papers as [|p papers IH]; intros st.
  - by exists st.
  - destruct (transform_step_writes st p) as (st1 & Hstep & Ht1 & _).
    destruct (IH st1) as (st' & Hrest & Ht').
    exists st'. cbn [for_each]. rewrite Hstep. cbn [mbind result_bind].
    split; [done|]. rewrite Ht', Ht1. csimpl. by rewrite write_all_app.
Qed.

Lemma load_writes t papers :
  load t papers = Ok (write_all t (papers ≫= written)).
Proof.
  unfold load, transform_and_write.
  destruct (transform_and_write_from (LoadState t 0 0 ∅) papers)
    as (st' & -> & Ht).
  simpl in *. by rewrite Ht.
Qed.
End pass.

(** ** The fan-out of one paper *)

(** C1.  A paper with a non-empty trimmed id and at least one non-blank
    category yields one master item, one category item per surviving
    category, one author item per surviving author (no more than the raw
    authors), and one keyword item per extracted keyword (no more than ten),
    and nothing else.  The primary keys show which item stands for which
    category, author or keyword. *)
Theorem item_counts (p : raw_paper) :
  trimmed_id p ≠ "" → surviving_categories p ≠ [] →
  ∃ items,
    generated_items p = Ok (Some items)
    ∧ length (of_kind "MASTER" items) = 1
    ∧ length (of_kind "CATEGORY" items) = length (surviving_categories p)
    ∧ length (of_kind "AUTHOR" items) = length (surviving_authors p)
    ∧ length (surviving_authors p) ≤ length (default [] (r_authors p))
    ∧ length (of_kind "KEYWORD" items) = length (extracted_keywords p)
    ∧ length (extracted_keywords p) ≤ 10
    ∧ length items
      = 1 + length (surviving_categories p) + length (surviving_authors p)
        + length (extracted_keywords p)
    ∧ (λ it, it !! "PK") <$> of_kind "CATEGORY" items
      = (λ c, Some (VStr ("CATEGORY#" +:+ c))) <$> surviving_categories p
    ∧ (λ it, it !! "PK") <$> of_kind "AUTHOR" items
      = (λ a, Some (VStr ("AUTHORITEM#" +:+ a +:+ "#" +:+ trimmed_id p)))
          <$> surviving_authors p
    ∧ (λ it, it !! "PK") <$> of_kind "KEYWORD" items
      = (λ k, Some (VStr ("KEYWORDITEM#" +:+ Py.lower k +:+ "#" +:+ trimmed_id p)))
          <$> extracted_keywords p.
Proof.
  intros Hid Hcat.
  destruct (normalize p) as [n|] eqn:Hn.
  2:{ apply normalize_None in Hn as [?|?]; done. }
  destruct (normalized_items p n Hn)
    as (m & cs & aus & ks & Hm & Hcs & Haus & Hks & Hb).
  exists (m :: cs ++ aus ++ ks).
  apply shaped_items in Hcs as (Hc1 & _ & Hc3 & Hc4).
  apply shaped_items in Haus as (Ha1 & _ & Ha3 & Ha4).
  apply shaped_items in Hks as (Hk1 & _ & Hk3 & Hk4).
  assert (Forall (λ d, d !! "item_type" = Some (VStr "MASTER")) [m]) as Hm1.
  { constructor; [apply Hm|constructor]. }
  assert (∀ kind, of_kind kind (m :: cs ++ aus ++ ks)
            = of_kind kind [m] ++ of_kind kind cs ++ of_kind kind aus
              ++ of_kind kind ks) as Hsplit.
  { intros kind. by rewrite <-!of_kind_app. }
  assert (of_kind "MASTER" (m :: cs ++ aus ++ ks) = [m]) as HM.
  { rewrite Hsplit, (of_kind_all _ [m]) by done.
    rewrite (of_kind_none "MASTER" "CATEGORY"),
      (of_kind_none "MASTER" "AUTHOR"),
      (of_kind_none "MASTER" "KEYWORD") by done.
    done. }
  assert (of_kind "CATEGORY" (m :: cs ++ aus ++ ks) = cs) as HC.
  { rewrite Hsplit, (of_kind_all _ cs) by done.
    rewrite (of_kind_none "CATEGORY" "MASTER"),
      (of_kind_none "CATEGORY" "AUTHOR"),
      (of_kind_none "CATEGORY" "KEYWORD") by done.
    by rewrite app_nil_r. }
  assert (of_kind "AUTHOR" (m :: cs ++ aus ++ ks) = aus) as HA.
  { rewrite Hsplit, (of_kind_all _ aus) by done.
    rewrite (of_kind_none "AUTHOR" "MASTER"),
      (of_kind_none "AUTHOR" "CATEGORY"),
      (of_kind_none "AUTHOR" "KEYWORD") by done.
    by rewrite app_nil_r. }
  assert (of_kind "KEYWORD" (m :: cs ++ aus ++ ks) = ks) as HK.
  { rewrite Hsplit, (of_kind_all _ ks) by done.
    rewrite (of_kind_none "KEYWORD" "MASTER"),
      (of_kind_none "KEYWORD" "CATEGORY"),
      (of_kind_none "KEYWORD" "AUTHOR") by done.
    done. }
  rewrite HM, HC, HA, HK. split_and!; try done.
  - unfold generated_items. by rewrite Hn, Hb.
  - apply nonblank_strings_length.
  - apply (top_keywords_length _ 10).
  - simpl. rewrite !length_app. lia.
Qed.

Lemma item_counts_sample :
  trimmed_id sample_paper ≠ "" ∧ surviving_categories sample_paper ≠ []
  ∧ ∃ items,
      generated_items sample_paper = Ok (Some items)
      ∧ length (of_kind "MASTER" items) = 1
      ∧ length (of_kind "CATEGORY" items) = length (surviving_categories sample_paper)
      ∧ length (of_kind "AUTHOR" items) = length (surviving_authors sample_paper)
      ∧ length (surviving_authors sample_paper)
        ≤ length (default [] (r_authors sample_paper))
      ∧ length (of_kind "KEYWORD" items) = length (extracted_keywords sample_paper)
      ∧ length (extracted_keywords sample_paper) ≤ 10
      ∧ length items
        = 1 + length (surviving_categories sample_paper)
          + length (surviving_authors sample_paper)
          + length (extracted_keywords sample_paper)
      ∧ (λ it, it !! "PK") <$> of_kind "CATEGORY" items
        = (λ c, Some (VStr ("CATEGORY#" +:+ c)))
            <$> surviving_categories sample_paper
      ∧ (λ it, it !! "PK") <$> of_kind "AUTHOR" items
        = (λ a, Some (VStr ("AUTHORITEM#" +:+ a +:+ "#"
                            +:+ trimmed_id sample_paper)))
            <$> surviving_authors sample_paper
      ∧ (λ it, it !! "PK") <$> of_kind "KEYWORD" items
        = (λ k, Some (VStr ("KEYWORDITEM#" +:+ Py.lower k +:+ "#"
                            +:+ trimmed_id sample_paper)))
            <$> extracted_keywords sample_paper.
Proof.
  split; [by vm_compute|]. split; [by vm_compute|].
  apply (item_counts sample_paper); by vm_compute.
Defined.

(** C2.  Every key attribute carried by a generated item is a non-empty
    string, and both primary key attributes are there, so that the writer
    submits every generated item.  The author and keyword builders return no
    item for an empty name, and the writer passes on to the store exactly the
    items whose [PK] and [SK] are present and not empty. *)
Theorem key_attributes_nonempty (p : raw_paper) :
  Forall (λ it, Forall (nonempty_string_at it) KEY_ATTRIBUTES
                ∧ ∃ pk sk, it !! "PK" = Some (VStr pk)
                           ∧ it !! "SK" = Some (VStr sk))
         (written p)
  ∧ submitted (Some <$> written p) = written p
  ∧ (∀ paper pub, make_author_item paper "" pub = Ok None)
  ∧ (∀ paper pub, make_keyword_item paper "" pub = Ok None)
  ∧ (∀ l it, it ∈ submitted l
             ↔ Some it ∈ l ∧ get_truthy it "PK" = true
               ∧ get_truthy it "SK" = true)
  ∧ (∀ t l, batch_write t l = for_each put_item t (submitted l)).
Proof.
  pose proof (written_shaped p) as Hall. split_and!.
  - eapply Forall_impl; [exact Hall|]. simpl.
    intros it (kind & pk & sk & Hs). split; [apply Hs|].
    exists pk, sk. split; apply Hs.
  - by apply (batch_write_shaped ∅).
  - apply make_author_item_empty.
  - apply make_keyword_item_empty.
  - apply elem_of_submitted.
  - apply batch_write_submitted.
Qed.

(** C6.  A paper without an id, or whose id is blank once trimmed, or with
    no non-blank category, generates no item and leaves the table and the
    counters as they were; the pass goes on as if the paper were not in the
    input. *)
Theorem skipped_papers (p : raw_paper) :
  (r_arxiv_id p = None ∧ r_id p = None) ∨ trimmed_id p = ""
  ∨ surviving_categories p = [] →
  generated_items p = Ok None
  ∧ written p = []
  ∧ (∀ st, transform_step st p = Ok st)
  ∧ (∀ t before after,
       transform_and_write t (before ++ p :: after)
       = transform_and_write t (before ++ after)).
Proof.
  intros Hp.
  assert (normalize p = None) as Hn.
  { apply normalize_None. destruct Hp as [[H1 H2]|[?|?]]; [left|by left|by right].
    unfold trimmed_id. by rewrite H1, H2. }
  assert (∀ st, transform_step st p = Ok st) as Hstep.
  { intros st. unfold transform_step. by rewrite Hn. }
  destruct (generated_items_None p Hn) as [Hg Hw]. split_and!; [done..|].
  intros t before after. unfold transform_and_write.
  rewrite !for_each_app. destruct (for_each transform_step _ before); [|done].
  cbn [mbind result_bind for_each]. by rewrite Hstep.
Qed.

Lemma skipped_papers_sample :
  trimmed_id paper_without_id = ""
  ∧ generated_items paper_without_id = Ok None
  ∧ ∀ t before after,
      transform_and_write t (before ++ paper_without_id :: after)
      = transform_and_write t (before ++ after).
Proof.
  split; [by vm_compute|].
  destruct (skipped_papers paper_without_id) as (H1 & _ & _ & H4).
  { right. left. by vm_compute. }
  split; [exact H1|exact H4].
Defined.

(** C8.  The items written for a paper are a function of the paper alone:
    the step of the pass writes them whatever the table and the counters
    hold.  Each item goes under the key pair it carries, so a load ends in
    the table obtained by putting the items of the papers in turn, and
    loading the same papers again, in the same run or in a later one, leaves
    that table as it is. *)
Theorem reload_replaces (t : table) (papers : list raw_paper) :
  (∀ st p, st_table <$> transform_step st p
           = Ok (write_all (st_table st) (written p)))
  ∧ (∀ p it, it ∈ written p →
       ∃ pk sk, it !! "PK" = Some (VStr pk) ∧ it !! "SK" = Some (VStr sk)
                ∧ pk ≠ "" ∧ sk ≠ "" ∧ key_of it = (pk, sk))
  ∧ ∃ t1, load t papers = Ok t1
          ∧ t1 = write_all t (papers ≫= written)
          ∧ load t1 papers = Ok t1
          ∧ load t (papers ++ papers) = Ok t1.
Proof.
  split_and!.
  - intros st p. destruct (transform_step_writes st p) as (st' & -> & <- & _).
    done.
  - intros p it Hit. pose proof (written_shaped p) as Hall.
    rewrite Forall_forall in Hall.
    destruct (Hall it Hit) as (kind & pk & sk & Hs).
    destruct (item_shape_keys _ _ _ _ Hs) as (? & ? & ?).
    exists pk, sk. split_and!; try done; apply Hs.
  - exists (write_all t (papers ≫= written)). split_and!.
    + apply load_writes.
    + done.
    + by rewrite load_writes, write_all_idempotent.
    + rewrite load_writes, bind_app, write_all_app.
      by rewrite write_all_idempotent.
Qed.

(** ** Order on strings *)

Section string_order.
Implicit Types (s t a b x y : string) (c : ascii).

Lemma ascii_compare_refl c : Ascii.compare c c = Eq.
Proof. unfold Ascii.compare. apply N.compare_refl. Qed.

Lemma compare_refl s : String.compare s s = Eq.
Proof.
  induction s as [|c s IH]; simpl; [done|]. by rewrite ascii_compare_refl.
Qed.

(** Behind prefixes of equal length, the prefixes decide, then the rests. *)
Lemma compare_append a : ∀ b x y,
  String.length a = String.length b →
  String.compare (a +:+ x) (b +:+ y)
  = match String.compare a b with
    | Eq => String.compare x y
    | o => o
    end.
Proof.
  induction a as [|c a IH]; intros [|d b] x y Hlen; simpl in *; try done.
  destruct (Ascii.compare c d); [|done..]. apply IH. lia.
Qed.

Lemma compare_empty_l s : String.compare "" s ≠ Gt.
Proof. by destruct s. Qed.

Lemma leb_compare s t :
  String.leb s t = match String.compare s t with Gt => false | _ => true end.
Proof. unfold String.leb. by destruct (String.compare s t). Qed.

Lemma lower_bound_matches start d id :
  String.length start = String.length d →
  String.leb (start +:+ "#") (d +:+ "#" +:+ id) = String.leb start d.
Proof.
  intros Hlen. rewrite !leb_compare, compare_append by done.
  destruct (String.compare start d); try done.
  simpl. rewrite ?ascii_compare_refl. by destruct id.
Qed.

Lemma upper_bound_matches end_ d id :
  String.length end_ = String.length d →
  String.leb (d +:+ "#" +:+ id) (end_ +:+ "#zzzzzzz")
  = match String.compare d end_ with
    | Eq => String.leb id "zzzzzzz"
    | Lt => true
    | Gt => false
    end.
Proof.
  intros Hlen. rewrite leb_compare, compare_append by done.
  by destruct (String.compare d end_).
Qed.
End string_order.

(** ** The date range query *)

(** C3 (amended).  The date range query, from the command line and over HTTP
    alike, asks for the category partition with the sort key between
    [start#] and [end#zzzzzzz].  For dates of one length, as the ten
    characters of [YYYY-MM-DD], an entry under the sort key [d#id] is matched
    exactly when [start <= d] and either [d < end], or [d = end] and the
    whole of [id] sorts no later than [zzzzzzz].  So with ids that sort no
    later than [zzzzzzz] the query returns the entries dated within
    [start, end], bounds included; an entry dated after [end] is never
    matched. *)
Theorem date_range_matches (table category start end_ d id : string) (it : dict) :
  it !! "PK" = Some (VStr ("CATEGORY#" +:+ category)) →
  it !! "SK" = Some (VStr (d +:+ "#" +:+ id)) →
  String.length start = String.length d →
  String.length end_ = String.length d →
  satisfies (query_papers_in_date_range table category start end_) it
  = String.leb start d
    && match String.compare d end_ with
       | Eq => String.leb id "zzzzzzz"
       | Lt => true
       | Gt => false
       end
  ∧ (String.leb id "zzzzzzz" = true →
     satisfies (query_papers_in_date_range table category start end_) it
     = date_in_range start end_ d)
  ∧ (date_in_range start end_ d = false →
     satisfies (query_papers_in_date_range table category start end_) it = false)
  ∧ (∀ unquote (q : query_string),
       first_value q "table" = Some table →
       given (first_value q "category") = Some category →
       given (first_value q "start") = Some start →
       given (first_value q "end") = Some end_ →
       ∃ k, do_GET unquote "/papers/search" q
            = Query (query_papers_in_date_range table category start end_) k).
Proof.
  intros Hpk Hsk Hs He.
  assert (satisfies (query_papers_in_date_range table category start end_) it
          = String.leb start d
            && match String.compare d end_ with
               | Eq => String.leb id "zzzzzzz"
               | Lt => true
               | Gt => false
               end) as Hsat.
  { unfold satisfies, query_papers_in_date_range. cbn [q_key q_between fst snd].
    rewrite Hpk, Hsk, bool_decide_eq_true_2 by done.
    rewrite lower_bound_matches, upper_bound_matches by done. done. }
  split_and!.
  - done.
  - intros Hid. rewrite Hsat, Hid. unfold date_in_range.
    rewrite (leb_compare d end_). by destruct (String.compare d end_).
  - unfold date_in_range. rewrite Hsat, (leb_compare d end_).
    destruct (String.leb start d); [|done].
    by destruct (String.compare d end_).
  - intros unquote q Ht Hc Hst Hen. unfold do_GET.
    rewrite Ht, Hc, Hst, Hen. simpl. by eexists.
Qed.

Lemma date_range_matches_may :
  satisfies
    (query_papers_in_date_range "arxiv-papers" "cs.LG" "2023-05-01" "2023-05-31")
    (category_entry "cs.LG" "2023-05-15" "2305.01234") = true
  ∧ satisfies
      (query_papers_in_date_range "arxiv-papers" "cs.LG" "2023-05-01" "2023-05-31")
      (category_entry "cs.LG" "2023-06-01" "2306.00001") = false.
Proof.
  split.
  - destruct (date_range_matches "arxiv-papers" "cs.LG" "2023-05-01"
                "2023-05-31" "2023-05-15" "2305.01234"
                (category_entry "cs.LG" "2023-05-15" "2305.01234"))
      as (_ & H & _); [by vm_compute..|].
    rewrite H; by vm_compute.
  - destruct (date_range_matches "arxiv-papers" "cs.LG" "2023-05-01"
                "2023-05-31" "2023-06-01" "2306.00001"
                (category_entry "cs.LG" "2023-06-01" "2306.00001"))
      as (_ & _ & H & _); [by vm_compute..|].
    apply H. by vm_compute.
Defined.

(** C3, as stated, fails: an id made of eight letters z is drawn from an
    alphabet that sorts no later than z, the entry is dated on the last day
    of the range, and the query does not match it. *)
Lemma date_range_misses_long_id :
  within_alphabet "zzzzzzzz"
  ∧ date_in_range "2023-05-01" "2023-05-31" "2023-05-31" = true
  ∧ satisfies
      (query_papers_in_date_range "arxiv-papers" "cs.LG" "2023-05-01" "2023-05-31")
      (category_entry "cs.LG" "2023-05-31" "zzzzzzzz") = false.
Proof.
  split_and!; [|by vm_compute..].
  intros c Hc. simpl in Hc.
  repeat (apply orb_true_iff in Hc as [Hc|Hc];
          [by apply Ascii.eqb_eq in Hc as ->|]).
  done.
Qed.

(** ** Routing *)

Section routing.
Context (unquote : string → string).
Implicit Types (path : string) (q : query_string).

Lemma prefix_split p : ∀ s, String.prefix p s = true → ∃ r, s = p +:+ r.
Proof.
  induction p as [|c p IH]; intros [|d s]; simpl; try done.
  - by exists "".
  - by exists (String d s).
  - destruct (ascii_dec c d) as [->|]; [|done].
    intros [r ->]%IH. by exists r.
Qed.

Lemma prefix_empty s : String.prefix "" s = true.
Proof. by destruct s. Qed.

Lemma get_flag_nonempty name args s : get_flag name args = Some s → args ≠ [].
Proof. by destruct args. Qed.

Lemma limit_flag_error args s :
  get_flag "--limit" args = Some s → py_int s = None →
  limit_flag args = inr (int_error s).
Proof. intros H1 H2. unfold limit_flag. by rewrite H1, H2. Qed.

Lemma limit_param_error q s rest :
  q !! "limit" = Some (s, rest) → py_int s = None → limit_param q = None.
Proof. intros H1 H2. unfold limit_param. by rewrite H1. Qed.
End routing.

(** C9.  With a limit that [int] rejects, such as "abc", the two limited
    queries answer with an error and send nothing to the store: over HTTP
    the routes of the recent papers and of the keyword answer 400 with an
    [error] body, and on the command line the [recent] and [keyword]
    commands print an [error] payload. *)
Theorem malformed_limit :
  py_int "abc" = None
  ∧ (∀ unquote path (q : query_string) s rest,
       path = "/papers/recent" ∨ Py.startswith "/papers/keyword/" path = true →
       q !! "limit" = Some (s, rest) → py_int s = None →
       ∃ message,
         do_GET unquote path q = Done (400, error_body message)
         ∧ ∀ store, serve unquote store path q = (400, error_body message))
  ∧ (∀ prog cmd args s,
       cmd = "recent" ∨ cmd = "keyword" →
       get_flag "--limit" args = Some s → py_int s = None →
       ∃ message,
         main (prog :: cmd :: args) = Done (Printed (error_payload message))
         ∧ ∀ store, run_main store (prog :: cmd :: args)
                    = Printed (error_payload message)).
Proof.
  split_and!; [done| |].
  - intros unquote path q s rest Hpath Hq Hs.
    pose proof (limit_param_error q s rest Hq Hs) as Hlim.
    assert (∃ message, do_GET unquote path q = Done (400, error_body message))
      as [message Hm].
    { destruct Hpath as [->|Hp].
      - unfold do_GET. simpl. rewrite Hlim.
        destruct (given (first_value q "category")); by eexists.
      - apply prefix_split in Hp as [r ->]. unfold do_GET, Py.startswith.
        simpl. rewrite prefix_empty, Hlim.
        destruct (Py.truthy (unquote r)); simpl; by eexists. }
    exists message. split; [done|]. intros store. unfold serve. by rewrite Hm.
  - intros prog cmd args s Hcmd Hflag Hs.
    pose proof (limit_flag_error args s Hflag Hs) as Hlim.
    pose proof (get_flag_nonempty _ _ _ Hflag) as Hargs.
    assert (∃ message,
              main (prog :: cmd :: args) = Done (Printed (error_payload message)))
      as [message Hm].
    { destruct args as [|a args]; [done|].
      destruct Hcmd as [-> | ->]; unfold main; simpl; rewrite Hlim; by eexists. }
    exists message. split; [done|]. intros store. unfold run_main.
    by rewrite Hm.
Qed.

(** C10, as stated, fails: a document whose id contains a slash, or is the
    word "recent", is retrieved through the point-lookup route when the
    request escapes a character of the id; and the request that spells the
    slash out is answered by no route at all, with a 404. *)
Lemma escaped_id_is_retrieved :
  Py.contains "/" "hep-th/9901001" = true
  ∧ serve unquote_ascii (holding [master_entry "hep-th/9901001" "1999-01-01"])
      "/papers/hep-th%2F9901001" ∅
    = (200, JItem (master_entry "hep-th/9901001" "1999-01-01"))
  ∧ serve unquote_ascii (holding [master_entry "recent" "2023-01-15"])
      "/papers/%72ecent" ∅
    = (200, JItem (master_entry "recent" "2023-01-15"))
  ∧ serve unquote_ascii (holding [master_entry "hep-th/9901001" "1999-01-01"])
      "/papers/hep-th/9901001" ∅
    = (404, error_body "Not Found").
Proof. split_and!; by vm_compute. Qed.

Section point_lookup_route.
Context (unquote : string → string).
Implicit Types (path : string) (q : query_string).

Lemma prefix_count c p : ∀ s,
  String.prefix p s = true → Py.count c p ≤ Py.count c s.
Proof.
  intros s [r ->]%prefix_split. induction p as [|d p IH]; simpl; lia.
Qed.

Lemma two_slashes_not_author path :
  Py.count "/" path = 2 → Py.startswith "/papers/author/" path = false.
Proof.
  intros Hc. destruct (Py.startswith _ path) eqn:E; [|done].
  apply (prefix_count "/") in E. simpl in E. lia.
Qed.

Lemma two_slashes_not_keyword path :
  Py.count "/" path = 2 → Py.startswith "/papers/keyword/" path = false.
Proof.
  intros Hc. destruct (Py.startswith _ path) eqn:E; [|done].
  apply (prefix_count "/") in E. simpl in E. lia.
Qed.

Lemma do_GET_point_lookup path q :
  Py.startswith "/papers/" path = true → Py.count "/" path = 2 →
  path ≠ "/papers/recent" → path ≠ "/papers/search" →
  unquote (Py.drop 8 path) ≠ "" →
  point_lookup (do_GET unquote path q)
    (default DEFAULT_TABLE (first_value q "table")) (unquote (Py.drop 8 path)).
Proof.
  intros Hp Hc Hr Hs Hid. unfold point_lookup, do_GET.
  rewrite (two_slashes_not_author path Hc), (two_slashes_not_keyword path Hc).
  rewrite Hp, Hc. apply truthy_true in Hid. rewrite Hid.
  destruct (String.eqb_spec path "/health") as [->|_]; [done|].
  destruct (String.eqb_spec path "/papers/recent") as [->|_]; [done|].
  destruct (String.eqb_spec path "/papers/search") as [->|_]; [done|].
  done.
Qed.

Lemma do_GET_point_lookup_inv path q req k :
  do_GET unquote path q = Query req k → q_index req = Some "PaperIdIndex" →
  Py.startswith "/papers/" path = true ∧ Py.count "/" path = 2
  ∧ path ≠ "/papers/recent" ∧ path ≠ "/papers/search"
  ∧ Py.startswith "/papers/author/" path = false
  ∧ Py.startswith "/papers/keyword/" path = false
  ∧ point_lookup (do_GET unquote path q)
      (default DEFAULT_TABLE (first_value q "table"))
      (unquote (Py.drop 8 path)).
Proof.
  unfold point_lookup, do_GET.
  destruct (String.eqb_spec path "/health") as [->|_]; [done|].
  destruct (String.eqb_spec path "/papers/recent") as [->|Hr].
  { destruct (given _); [|done]. destruct (limit_param q); [|done].
    by intros [= <- _] [=]. }
  destruct (Py.startswith "/papers/author/" path) eqn:Ha.
  { destruct (negb _); [done|]. by intros [= <- _] [=]. }
  destruct (Py.startswith "/papers/keyword/" path) eqn:Hk.
  { destruct (negb _); [done|]. destruct (limit_param q); [|done].
    by intros [= <- _] [=]. }
  destruct (String.eqb_spec path "/papers/search") as [->|Hs].
  { destruct (given _); [|done]. destruct (given _); [|done].
    destruct (given _); [|done]. by intros [= <- _] [=]. }
  destruct (Py.startswith "/papers/" path) eqn:Hp; [|done].
  destruct (Py.count "/" path =? 2) eqn:Hc; [|done]. simpl.
  apply Nat.eqb_eq in Hc.
  destruct (negb _); [done|]. intros _ _. done.
Qed.

Lemma do_GET_no_route path q :
  Py.startswith "/papers/" path = true → Py.count "/" path ≠ 2 →
  Py.startswith "/papers/author/" path = false →
  Py.startswith "/papers/keyword/" path = false →
  do_GET unquote path q = Done (404, error_body "Not Found").
Proof.
  intros Hp Hc Ha Hk. unfold do_GET. rewrite Ha, Hk, Hp.
  apply Nat.eqb_neq in Hc as Hc'. rewrite Hc'.
  destruct (String.eqb_spec path "/health") as [->|_]; [done|].
  destruct (String.eqb_spec path "/papers/recent") as [->|_]; [done|].
  destruct (String.eqb_spec path "/papers/search") as [->|_]; [done|].
  done.
Qed.
End point_lookup_route.

(** C10 (amended).  The point-lookup route is tried after the routes of the
    recent papers, of the author, of the keyword and of the search, and
    takes the paths that begin with [/papers/] and hold two slashes; the id
    it looks up is the percent-decoded rest of the path.  So the requests
    [/papers/recent] and [/papers/search] go to the routes of these names
    (a 400 when their parameters are missing), a path under [/papers/] with
    another slash that is neither an author nor a keyword path is answered
    404 by no route, and a document whose id is "recent" or "search", or
    holds a slash, is looked up by the request that escapes a character of
    the id. *)
Theorem point_lookup_routing (unquote : string → string) (q : query_string) :
  (∀ path req k,
     do_GET unquote path q = Query req k → q_index req = Some "PaperIdIndex" →
     Py.startswith "/papers/" path = true ∧ Py.count "/" path = 2
     ∧ path ≠ "/papers/recent" ∧ path ≠ "/papers/search"
     ∧ Py.startswith "/papers/author/" path = false
     ∧ Py.startswith "/papers/keyword/" path = false
     ∧ point_lookup (do_GET unquote path q)
         (default DEFAULT_TABLE (first_value q "table"))
         (unquote (Py.drop 8 path)))
  ∧ (∀ path,
       Py.startswith "/papers/" path = true → Py.count "/" path = 2 →
       path ≠ "/papers/recent" → path ≠ "/papers/search" →
       unquote (Py.drop 8 path) ≠ "" →
       point_lookup (do_GET unquote path q)
         (default DEFAULT_TABLE (first_value q "table"))
         (unquote (Py.drop 8 path)))
  ∧ (given (first_value q "category") = None →
     do_GET unquote "/papers/recent" q
     = Done (400, error_body "category is required"))
  ∧ (given (first_value q "category") = None →
     do_GET unquote "/papers/search" q
     = Done (400, error_body "category, start, end are required"))
  ∧ (∀ path,
       Py.startswith "/papers/" path = true → Py.count "/" path ≠ 2 →
       Py.startswith "/papers/author/" path = false →
       Py.startswith "/papers/keyword/" path = false →
       do_GET unquote path q = Done (404, error_body "Not Found"))
  ∧ point_lookup (do_GET unquote_ascii "/papers/%72ecent" q)
      (default DEFAULT_TABLE (first_value q "table")) "recent"
  ∧ point_lookup (do_GET unquote_ascii "/papers/%73earch" q)
      (default DEFAULT_TABLE (first_value q "table")) "search"
  ∧ point_lookup (do_GET unquote_ascii "/papers/hep-th%2F9901001" q)
      (default DEFAULT_TABLE (first_value q "table")) "hep-th/9901001".
Proof.
  split_and!.
  - intros path req k. apply do_GET_point_lookup_inv.
  - intros path. apply do_GET_point_lookup.
  - intros Hc. unfold do_GET. simpl. by rewrite Hc.
  - intros Hc. unfold do_GET. simpl. by rewrite Hc.
  - intros path. apply do_GET_no_route.
  - by apply (do_GET_point_lookup unquote_ascii "/papers/%72ecent").
  - by apply (do_GET_point_lookup unquote_ascii "/papers/%73earch").
  - by apply (do_GET_point_lookup unquote_ascii "/papers/hep-th%2F9901001").
Qed.

(** * Further properties of the loader and of the front ends *)

(** ** Dropping empty attributes *)

Lemma kept_value_nonempty v : kept_value v = true ↔ ¬ empty_value v.
Proof.
  unfold empty_value. destruct v as [|s|l]; simpl.
  - split; [done|]. intros H. destruct H. by left.
  - rewrite negb_true_iff, String.eqb_neq. split.
    + intros Hs [?|[[=]|?]]; done.
    + intros H ->. apply H. right. by left.
  - destruct l; simpl; split; try done.
    + intros H. destruct H. by do 2 right.
    + intros _ [?|[?|?]]; done.
Qed.

(** X1.  [compact] keeps an attribute exactly when its value is not [None],
    the empty string or the empty list; so it only removes attributes, a
    second pass removes nothing more, and a dictionary without such values is
    left as it is. *)
Theorem compact_drops_empty_values (d : dict) :
  (∀ k v, compact d !! k = Some v ↔ d !! k = Some v ∧ ¬ empty_value v)
  ∧ compact d ⊆ d
  ∧ compact (compact d) = compact d
  ∧ (compact d = d ↔ ∀ k v, d !! k = Some v → ¬ empty_value v).
Proof.
  assert (∀ d' k v, compact d' !! k = Some v
                    ↔ d' !! k = Some v ∧ ¬ empty_value v) as Hlook.
  { intros d' k v. by rewrite compact_lookup_Some, kept_value_nonempty. }
  split_and!.
  - apply Hlook.
  - apply map_filter_subseteq.
  - apply map_eq. intros k. apply option_eq. intros v.
    rewrite !Hlook. tauto.
  - split.
    + intros Heq k v Hk. rewrite <-Heq in Hk. by apply Hlook in Hk as [_ ?].
    + intros Hall. apply map_eq. intros k. apply option_eq. intros v.
      rewrite Hlook. split; [tauto|]. intros Hk. split; [done|].
      by apply (Hall k).
Qed.

(** ** Dates once more *)

Lemma take_all n s : String.length s ≤ n → Py.take n s = s.
Proof.
  revert n. induction s as [|c s IH]; intros [|n]; simpl; try done; [lia|].
  intros H. rewrite IH; [done|lia].
Qed.

Lemma before_append c s r :
  Py.contains c s = false → Py.before c (s +:+ String c r) = s.
Proof.
  induction s as [|d s IH]; simpl.
  - by rewrite Ascii.eqb_refl.
  - destruct (Ascii.eqb c d); simpl; [done|]. intros H. by rewrite IH.
Qed.

Lemma contains_append c s r :
  Py.contains c (s +:+ r) = Py.contains c s || Py.contains c r.
Proof.
  induction s as [|d s IH]; simpl; [done|]. by rewrite IH, orb_assoc.
Qed.

Lemma contains_before c s : Py.contains c (Py.before c s) = false.
Proof.
  induction s as [|d s IH]; simpl; [done|].
  destruct (Ascii.eqb c d) eqn:E; simpl; [done|]. by rewrite E.
Qed.

Lemma ymd_no_T v : Py.contains "T" (ymd v) = false.
Proof.
  destruct v as [s|]; [|done]. unfold ymd.
  destruct (Py.truthy s); cbn [negb]; [|done].
  destruct (Py.contains "T" s) eqn:HT.
  - destruct (10 <=? _); [|done]. apply contains_take_false, contains_before.
  - destruct (10 <=? _); [|done]. by apply contains_take_false.
Qed.

Lemma ymd_fixed s :
  String.length s = 10 → Py.contains "T" s = false → ymd (Some s) = s.
Proof.
  intros Hlen HT. unfold ymd. rewrite HT.
  destruct s as [|c s]; [done|]. cbn [Py.truthy negb]. rewrite Hlen.
  simpl (10 <=? 10). cbv iota. apply take_all. lia.
Qed.

(** X2.  The date that [ymd] returns has ten characters, none of them the
    letter T, and is a fixed point of [ymd]; and the timestamp that the
    loader synthesises from it for a paper without [published], the date
    followed by [T00:00:00Z], gives the same date back. *)
Theorem ymd_round_trip (v : option string) :
  String.length (ymd v) = 10
  ∧ Py.contains "T" (ymd v) = false
  ∧ ymd (Some (ymd v)) = ymd v
  ∧ ymd (Some (ymd v +:+ "T00:00:00Z")) = ymd v.
Proof.
  pose proof (ymd_length v) as Hlen. pose proof (ymd_no_T v) as HT.
  split_and!; [done|done|by apply ymd_fixed|].
  generalize dependent (ymd v). intros s Hlen HT. unfold ymd.
  assert (Py.truthy (s +:+ "T00:00:00Z") = true) as ->.
  { apply truthy_true, append_nonempty_r. done. }
  cbn [negb]. rewrite contains_append. simpl (Py.contains "T" "T00:00:00Z").
  rewrite orb_true_r, before_append by done. rewrite Hlen.
  simpl (10 <=? 10). cbv iota. apply take_all. lia.
Qed.

(** ** The shape of keywords *)

Lemma lower_char_letter c :
  is_alpha (Py.lower_char c) = true → is_lower_letter (Py.lower_char c) = true.
Proof. destruct c as [[] [] [] [] [] [] [] []]; vm_compute; congruence. Qed.

Lemma lower_char_fixed c : is_lower_letter c = true → Py.lower_char c = c.
Proof. destruct c as [[] [] [] [] [] [] [] []]; vm_compute; congruence. Qed.

Lemma lower_char_idempotent c : Py.lower_char (Py.lower_char c) = Py.lower_char c.
Proof. destruct c as [[] [] [] [] [] [] [] []]; by vm_compute. Qed.

Lemma lower_idempotent s : Py.lower (Py.lower s) = Py.lower s.
Proof.
  induction s as [|c s IH]; simpl; [done|].
  by rewrite lower_char_idempotent, IH.
Qed.

Lemma contains_lower c s :
  Py.contains c (Py.lower s) = true → ∃ d, c = Py.lower_char d.
Proof.
  induction s as [|d s IH]; simpl; [done|].
  intros [H|H]%orb_true_iff; [|by apply IH].
  apply Ascii.eqb_eq in H. by exists d.
Qed.

Lemma lower_fixed s :
  (∀ c, Py.contains c s = true → is_lower_letter c = true) → Py.lower s = s.
Proof.
  induction s as [|d s IH]; simpl; [done|]. intros H.
  rewrite lower_char_fixed, IH; [done| |].
  - intros c Hc. apply H. by rewrite Hc, orb_true_r.
  - apply H. by rewrite Ascii.eqb_refl.
Qed.

(** The characters of a run are letters of the text. *)
Lemma Runs_chars s ts :
  Runs s ts → ∀ t c, t ∈ ts → Py.contains c t = true →
  Py.contains c s = true ∧ is_alpha c = true.
Proof.
  induction 1 as [|d s ts Hd _ IH|t' s ts Ht Ha Hb _ IH]; intros t c Hin Hc.
  - by apply elem_of_nil in Hin.
  - destruct (IH t c Hin Hc) as [H1 H2]. split; [|done].
    simpl. by rewrite H1, orb_true_r.
  - rewrite contains_append. apply elem_of_cons in Hin as [->|Hin].
    + split; [by rewrite Hc|by apply Ha].
    + destruct (IH t c Hin Hc) as [H1 H2]. split; [|done].
      by rewrite H1, orb_true_r.
Qed.

Lemma tokenize_words_lowercase text w c :
  w ∈ tokenize_words text → Py.contains c w = true → is_lower_letter c = true.
Proof.
  unfold tokenize_words. rewrite list_elem_of_In, filter_In.
  intros [Hin%list_elem_of_In _] Hc.
  assert (Runs (Py.lower (Py.or_empty text))
            (findall_alpha (Py.lower (Py.or_empty text)))) as HR
    by by apply findall_alpha_runs.
  destruct (Runs_chars _ _ HR w c Hin Hc) as [[d ->]%contains_lower Ha].
  by apply lower_char_letter.
Qed.

(** X3.  Every token, and so every extracted keyword, is a word of at least
    three lowercase letters a to z that is not a stopword, and lowercasing
    leaves it as it is; the extraction does not tell a text from its
    lowercase form. *)
Theorem keywords_are_lowercase_words (text : option string) (k : Z) :
  Forall (λ w, (∀ c, Py.contains c w = true → is_lower_letter c = true)
               ∧ 2 < String.length w ∧ (w ∉ STOPWORDS) ∧ Py.lower w = w)
         (tokenize_words text)
  ∧ Forall (λ w, (∀ c, Py.contains c w = true → is_lower_letter c = true)
                 ∧ 2 < String.length w ∧ (w ∉ STOPWORDS) ∧ Py.lower w = w)
           (top_keywords_from_abstract text k)
  ∧ tokenize_words (Some (Py.lower (Py.or_empty text))) = tokenize_words text
  ∧ top_keywords_from_abstract (Some (Py.lower (Py.or_empty text))) k
    = top_keywords_from_abstract text k.
Proof.
  assert (∀ w, w ∈ tokenize_words text →
            (∀ c, Py.contains c w = true → is_lower_letter c = true)
            ∧ 2 < String.length w ∧ (w ∉ STOPWORDS) ∧ Py.lower w = w) as Htok.
  { intros w Hw.
    assert (∀ c, Py.contains c w = true → is_lower_letter c = true) as Hlow
      by (intros c; by apply (tokenize_words_lowercase text)).
    split_and!; [done| | |by apply lower_fixed].
    - unfold tokenize_words in Hw. rewrite list_elem_of_In, filter_In in Hw.
      by destruct Hw as [_ [_ ?]%kept_token_spec].
    - unfold tokenize_words in Hw. rewrite list_elem_of_In, filter_In in Hw.
      by destruct Hw as [_ [? _]%kept_token_spec]. }
  assert (tokenize_words (Some (Py.lower (Py.or_empty text)))
          = tokenize_words text) as Hsame.
  { unfold tokenize_words. simpl. by rewrite lower_idempotent. }
  split_and!.
  - apply Forall_forall. intros w Hw. by apply Htok.
  - apply Forall_forall. intros w Hw%top_keywords_elem. by apply Htok.
  - done.
  - unfold top_keywords_from_abstract. by rewrite Hsame.
Qed.

(** ** The items of a paper, builder by builder *)

Lemma normalize_document p n :
  normalize p = Some n → n_paper n = paper_document p.
Proof.
  unfold normalize, paper_document.
  fold (trimmed_id p) (surviving_categories p) (surviving_authors p)
       (published_date p) (extracted_keywords p).
  destruct (Py.truthy (trimmed_id p)); cbn [negb]; [|done].
  destruct (surviving_categories p) as [|c cs] eqn:Hc; [done|].
  by intros [= <-].
Qed.

(** The sequence written for a paper that is not skipped, as the results of
    the four builders on its document. *)
Lemma written_exact p :
  trimmed_id p ≠ "" → surviving_categories p ≠ [] →
  ∃ m cs aus ks,
    written p = m :: cs ++ aus ++ ks
    ∧ make_master_item (paper_document p) (published_date p) = Ok m
    ∧ category_items_of (paper_document p) (published_date p)
        (surviving_categories p) cs
    ∧ author_items_of (paper_document p) (published_date p)
        (surviving_authors p) aus
    ∧ keyword_items_of (paper_document p) (published_date p)
        (extracted_keywords p) ks.
Proof.
  intros Hid Hcat.
  destruct (normalize p) as [n|] eqn:Hn.
  2:{ apply normalize_None in Hn as [?|?]; done. }
  pose proof (normalize_document p n Hn) as Hdoc.
  destruct (normalize_Some p n Hn) as (_ & Hc & Ha & Hd & Hpid & Hfresh & Hkws).
  rewrite Hdoc in Hpid, Hfresh, Hkws.
  destruct (make_master_item_shape _ _ Hpid Hfresh (published_date p))
    as (m & Hm & _).
  edestruct (for_each_appends "category"
    (λ c d, make_category_item (paper_document p) c (published_date p) = Ok d)
    (λ acc c, it ← make_category_item (paper_document p) c (published_date p);
              Ok (emit "category" (Some it) acc)) (surviving_categories p))
    as (cs & Hcs & Hcloop).
  { intros c _.
    destruct (make_category_item_shape _ _ Hpid Hfresh c (published_date p))
      as (d & Hd' & Hds).
    exists d. split; [done|]. intros acc. rewrite Hd'. cbn [mbind result_bind].
    by erewrite emit_shaped. }
  edestruct (for_each_appends "author"
    (λ a d, make_author_item (paper_document p) a (published_date p) = Ok (Some d))
    (λ acc a, it ← make_author_item (paper_document p) a (published_date p);
              Ok (emit "author" it acc)) (surviving_authors p))
    as (aus & Haus & Haloop).
  { intros a Hin. apply nonblank_strings_nonempty in Hin.
    destruct (make_author_item_shape _ _ Hpid Hfresh a (published_date p) Hin)
      as (d & Hd' & Hds).
    exists d. split; [done|]. intros acc. rewrite Hd'. cbn [mbind result_bind].
    by erewrite emit_shaped. }
  edestruct (for_each_appends "keyword"
    (λ k d, make_keyword_item (paper_document p) k (published_date p) = Ok (Some d))
    (λ acc kw, it ← make_keyword_item (paper_document p) kw (published_date p);
               Ok (emit "keyword" it acc)) (extracted_keywords p))
    as (ks & Hks & Hkloop).
  { intros k Hin.
    pose proof (extracted_keywords_nonempty p) as Hne.
    rewrite Forall_forall in Hne.
    destruct (make_keyword_item_shape _ _ Hpid Hfresh k (published_date p)
                (Hne k Hin)) as (d & Hd' & Hds).
    exists d. split; [done|]. intros acc. rewrite Hd'. cbn [mbind result_bind].
    by erewrite emit_shaped. }
  exists m, cs, aus, ks. split_and!; [|assumption..].
  unfold written, generated_items. rewrite Hn, Hdoc, Hc, Ha, Hd.
  unfold build_items. rewrite Hm. cbn [mbind result_bind].
  rewrite Hcloop. cbn [mbind result_bind]. rewrite Haloop.
  cbn [mbind result_bind]. rewrite Hkws. cbn [mbind result_bind].
  rewrite Hkloop. cbn [fst snd mbind result_bind]. by rewrite <-!app_assoc.
Qed.

(** ** The keys and the payload of each kind of item *)

Lemma compact_lookup (d : dict) k :
  compact d !! k
  = match d !! k with
    | Some v => if kept_value v then Some v else None
    | None => None
    end.
Proof.
  apply option_eq. intros v. rewrite compact_lookup_Some.
  destruct (d !! k) as [w|]; [|by split; [intros [? _]|]].
  destruct (kept_value w) eqn:E; split.
  - by intros [[= ->] _].
  - by intros [= ->].
  - intros [[= ->] ?]. congruence.
  - done.
Qed.

Lemma compact_idempotent (d : dict) : compact (compact d) = compact d.
Proof.
  apply map_eq. intros k. rewrite !compact_lookup.
  destruct (d !! k) as [v|]; [|done].
  destruct (kept_value v) eqn:E; [by rewrite E|done].
Qed.

Lemma paper_document_compact p : compact (paper_document p) = paper_document p.
Proof. apply compact_idempotent. Qed.

Lemma elem_of_RESERVED k :
  k ∈ RESERVED
  ↔ k = "item_type" ∨ k = "PK" ∨ k = "SK" ∨ k = "GSI1PK" ∨ k = "GSI1SK"
    ∨ k = "GSI2PK" ∨ k = "GSI2SK" ∨ k = "GSI3PK" ∨ k = "GSI3SK".
Proof.
  unfold RESERVED, KEY_ATTRIBUTES, INDEX_KEY_ATTRIBUTES.
  rewrite !elem_of_cons, elem_of_nil. tauto.
Qed.

Section built_items.
Context (paper : dict) (id : string).
Hypothesis Hid : paper !! "arxiv_id" = Some (VStr id).
Hypothesis Hfresh : Forall (λ k, paper !! k = None) RESERVED.
Hypothesis Hcompact : compact paper = paper.

Lemma built_reserved (base : dict) k :
  k ∈ RESERVED → compact (paper ∪ base) !! k = compact base !! k.
Proof.
  intros Hk. rewrite !compact_lookup, lookup_union_r; [done|].
  by apply reserved_fresh.
Qed.

Lemma built_carries (base : dict) :
  (∀ k, k ∉ RESERVED → base !! k = None) → carries paper (compact (paper ∪ base)).
Proof.
  intros Hbase k Hk. rewrite compact_lookup, lookup_union_l by by apply Hbase.
  rewrite <-compact_lookup. by rewrite Hcompact.
Qed.

Ltac reserved := apply (bool_decide_unpack _); by vm_compute.
Ltac present := rewrite built_reserved by reserved;
  apply compact_lookup_kept; [by simplify_map_eq|];
  first [done|apply kept_value_str; apply sort_key_nonempty
        |apply kept_value_str; apply date_or_sentinel_nonempty].
Ltac absent := rewrite built_reserved by reserved;
  apply compact_lookup_None; by simplify_map_eq.
Ltac outside :=
  apply built_carries; intros k Hk; rewrite elem_of_RESERVED in Hk;
  repeat (rewrite lookup_insert_ne
            by (intros <-; apply Hk;
                repeat (first [left; reflexivity|right]); reflexivity));
  apply lookup_empty.

Lemma master_item_keys pub m :
  make_master_item paper pub = Ok m →
  item_keys "MASTER" ("PAPER#" +:+ id) "MASTER" None (Some ("PAPER#" +:+ id)) None m
  ∧ m !! "GSI2SK" = Some (VStr (date_or_sentinel pub))
  ∧ carries paper m.
Proof.
  unfold make_master_item. rewrite (subscript_arxiv_id paper id Hid).
  cbn [mbind result_bind]. intros [= <-]. unfold item_keys.
  split_and!; [present|present|present|absent|present|absent|present|outside].
Qed.

Lemma category_item_keys c pub d :
  make_category_item paper c pub = Ok d →
  item_keys "CATEGORY" ("CATEGORY#" +:+ c) (date_or_sentinel pub +:+ "#" +:+ id)
    None None None d
  ∧ carries paper d.
Proof.
  unfold make_category_item. rewrite (subscript_arxiv_id paper id Hid).
  cbn [mbind result_bind]. intros [= <-]. unfold item_keys.
  split_and!; [present|present|present|absent|absent|absent|outside].
Qed.

Lemma author_item_keys a pub d :
  make_author_item paper a pub = Ok (Some d) →
  item_keys "AUTHOR" ("AUTHORITEM#" +:+ a +:+ "#" +:+ id)
    (date_or_sentinel pub +:+ "#" +:+ id) (Some ("AUTHOR#" +:+ a)) None None d
  ∧ d !! "GSI1SK" = Some (VStr (date_or_sentinel pub +:+ "#" +:+ id))
  ∧ carries paper d.
Proof.
  unfold make_author_item. destruct (Py.truthy a); cbn [negb]; [|done].
  rewrite (subscript_arxiv_id paper id Hid).
  cbn [mbind result_bind]. intros [= <-]. unfold item_keys.
  split_and!; [present|present|present|present|absent|absent|present|outside].
Qed.

Lemma keyword_item_keys kw pub d :
  make_keyword_item paper kw pub = Ok (Some d) →
  item_keys "KEYWORD" ("KEYWORDITEM#" +:+ Py.lower kw +:+ "#" +:+ id)
    (date_or_sentinel pub +:+ "#" +:+ id) None None
    (Some ("KEYWORD#" +:+ Py.lower kw)) d
  ∧ d !! "GSI3SK" = Some (VStr (date_or_sentinel pub +:+ "#" +:+ id))
  ∧ carries paper d.
Proof.
  unfold make_keyword_item. destruct (Py.truthy kw); cbn [negb]; [|done].
  rewrite (subscript_arxiv_id paper id Hid).
  cbn [mbind result_bind]. intros [= <-]. unfold item_keys.
  split_and!; [present|present|present|absent|absent|present|present|outside].
Qed.
End built_items.

(** ** The items of a paper, with their keys *)

Lemma paper_document_id p :
  trimmed_id p ≠ "" →
  paper_document p !! "arxiv_id" = Some (VStr (trimmed_id p))
  ∧ Forall (λ k, paper_document p !! k = None) RESERVED.
Proof.
  intros Hid. unfold paper_document. split.
  - apply compact_lookup_kept; [by simplify_map_eq|by apply kept_value_str].
  - unfold RESERVED, KEY_ATTRIBUTES, INDEX_KEY_ATTRIBUTES.
    repeat constructor; apply compact_lookup_None; by simplify_map_eq.
Qed.

Lemma built_item_compact (paper base d : dict) :
  Ok (compact (paper ∪ base)) = Ok d → compact d = d.
Proof. intros [= <-]. apply compact_idempotent. Qed.

Lemma master_item_compact paper pub m :
  make_master_item paper pub = Ok m → compact m = m.
Proof.
  unfold make_master_item. destruct (subscript_str paper "arxiv_id"); [|done].
  cbn [mbind result_bind]. apply built_item_compact.
Qed.

Lemma category_item_compact paper c pub d :
  make_category_item paper c pub = Ok d → compact d = d.
Proof.
  unfold make_category_item. destruct (subscript_str paper "arxiv_id"); [|done].
  cbn [mbind result_bind]. apply built_item_compact.
Qed.

Lemma author_item_compact paper a pub d :
  make_author_item paper a pub = Ok (Some d) → compact d = d.
Proof.
  unfold make_author_item. destruct (negb _); [done|].
  destruct (subscript_str paper "arxiv_id"); [|done].
  cbn [mbind result_bind]. intros [= <-]. apply compact_idempotent.
Qed.

Lemma keyword_item_compact paper k pub d :
  make_keyword_item paper k pub = Ok (Some d) → compact d = d.
Proof.
  unfold make_keyword_item. destruct (negb _); [done|].
  destruct (subscript_str paper "arxiv_id"); [|done].
  cbn [mbind result_bind]. intros [= <-]. apply compact_idempotent.
Qed.

Lemma date_or_sentinel_published p :
  date_or_sentinel (published_date p) = published_date p.
Proof. apply date_or_sentinel_ymd. Qed.

Lemma extracted_keywords_lower p k :
  k ∈ extracted_keywords p → Py.lower k = k.
Proof.
  intros Hk%top_keywords_elem. apply lower_fixed. intros c.
  by apply (tokenize_words_lowercase
              (Some (Py.strip (Py.or_empty (r_abstract p)))) k).
Qed.

Lemma Forall2_elem_l {A B} (P : A → B → Prop) (l : list A) (k : list B) :
  Forall2 P l k → Forall2 (λ x y, x ∈ l ∧ P x y) l k.
Proof.
  induction 1 as [|x y l k HP _ IH]; constructor.
  - split; [left|done].
  - eapply Forall2_impl; [exact IH|]. intros x' y' [? ?]. split; [by right|done].
Qed.

(** A paper that is not skipped is written as its master item, then one item
    per category, per author and per keyword, each with the keys of its
    kind; every item carries the document and is free of empty values. *)
Lemma written_items p :
  trimmed_id p ≠ "" → surviving_categories p ≠ [] →
  ∃ m cs aus ks,
    written p = m :: cs ++ aus ++ ks
    ∧ master_of p m
    ∧ Forall2 (category_of p) (surviving_categories p) cs
    ∧ Forall2 (author_of p) (surviving_authors p) aus
    ∧ Forall2 (keyword_of p) (extracted_keywords p) ks
    ∧ Forall (λ it, carries (paper_document p) it ∧ compact it = it)
        (m :: cs ++ aus ++ ks).
Proof.
  intros Hid Hcat.
  destruct (written_exact p Hid Hcat)
    as (m & cs & aus & ks & Hw & Hm & Hcs & Haus & Hks).
  destruct (paper_document_id p Hid) as [Hpid Hfresh].
  pose proof (paper_document_compact p) as Hcomp.
  unfold category_items_of, author_items_of, keyword_items_of in *.
  exists m, cs, aus, ks.
  unfold master_of, category_of, author_of, keyword_of, dated_sort_key.
  rewrite <-(date_or_sentinel_published p).
  destruct (master_item_keys _ _ Hpid Hfresh Hcomp _ _ Hm) as (Hm1 & Hm2 & Hm3).
  assert (Forall (λ it, carries (paper_document p) it ∧ compact it = it) cs)
    as Hc2.
  { eapply Forall2_Forall_r; [exact Hcs|]. apply Forall_forall.
    intros c _ d Hd. split; [|by eapply category_item_compact].
    by destruct (category_item_keys _ _ Hpid Hfresh Hcomp _ _ _ Hd). }
  assert (Forall (λ it, carries (paper_document p) it ∧ compact it = it) aus)
    as Ha2.
  { eapply Forall2_Forall_r; [exact Haus|]. apply Forall_forall.
    intros a _ d Hd. split; [|by eapply author_item_compact].
    by destruct (author_item_keys _ _ Hpid Hfresh Hcomp _ _ _ Hd) as (_ & _ & ?). }
  assert (Forall (λ it, carries (paper_document p) it ∧ compact it = it) ks)
    as Hk2.
  { eapply Forall2_Forall_r; [exact Hks|]. apply Forall_forall.
    intros k _ d Hd. split; [|by eapply keyword_item_compact].
    by destruct (keyword_item_keys _ _ Hpid Hfresh Hcomp _ _ _ Hd) as (_ & _ & ?). }
  split; [exact Hw|]. split; [split; [exact Hm1|exact Hm2]|].
  split; [|split; [|split]].
  - eapply Forall2_impl; [exact Hcs|]. intros c d Hd.
    destruct (category_item_keys _ _ Hpid Hfresh Hcomp _ _ _ Hd) as [H1 _].
    exact H1.
  - eapply Forall2_impl; [exact Haus|]. intros a d Hd.
    destruct (author_item_keys _ _ Hpid Hfresh Hcomp _ _ _ Hd) as (H1 & H2 & _).
    split; [exact H1|exact H2].
  - eapply Forall2_impl; [apply Forall2_elem_l, Hks|]. intros k d [Hin Hd].
    destruct (keyword_item_keys _ _ Hpid Hfresh Hcomp _ _ _ Hd) as (H1 & H2 & _).
    rewrite (extracted_keywords_lower p k Hin) in H1.
    split; [exact H1|exact H2].
  - apply master_item_compact in Hm.
    constructor; [split; [exact Hm3|exact Hm]|]. rewrite !Forall_app.
    split; [exact Hc2|split; [exact Ha2|exact Hk2]].
Qed.

Lemma written_skipped p :
  trimmed_id p = "" ∨ surviving_categories p = [] → written p = [].
Proof. intros H. by apply generated_items_None, normalize_None. Qed.

Lemma written_cases p :
  written p = []
  ∨ (trimmed_id p ≠ "" ∧ surviving_categories p ≠ []).
Proof.
  destruct (decide (trimmed_id p = "")) as [?|Hid].
  { left. apply written_skipped. by left. }
  destruct (decide (surviving_categories p = [])) as [?|Hc].
  { left. apply written_skipped. by right. }
  by right.
Qed.

(** Every written item is of one of the four kinds, carries the document and
    has no empty value. *)
Lemma written_item_of p it :
  it ∈ written p →
  item_of p it ∧ carries (paper_document p) it ∧ compact it = it
  ∧ trimmed_id p ≠ "".
Proof.
  destruct (written_cases p) as [->|[Hid Hcat]]; [by intros ?%elem_of_nil|].
  destruct (written_items p Hid Hcat)
    as (m & cs & aus & ks & -> & Hm & Hcs & Haus & Hks & Hall).
  intros Hin. rewrite Forall_forall in Hall.
  destruct (Hall it Hin) as [Hcar Hcomp].
  split; [|split; [exact Hcar|split; [exact Hcomp|exact Hid]]].
  unfold item_of.
  apply elem_of_cons in Hin as [->|Hin]; [left; exact Hm|].
  rewrite !elem_of_app in Hin. destruct Hin as [Hin|[Hin|Hin]].
  - right. left.
    apply list_elem_of_lookup in Hin as [i Hi].
    destruct (Forall2_lookup_r _ _ _ _ _ Hcs Hi) as (c & Hc & Hc').
    exists c. split; [|exact Hc']. by apply list_elem_of_lookup_2 in Hc.
  - right. right. left.
    apply list_elem_of_lookup in Hin as [i Hi].
    destruct (Forall2_lookup_r _ _ _ _ _ Haus Hi) as (a & Ha & Ha').
    exists a. split; [|exact Ha']. by apply list_elem_of_lookup_2 in Ha.
  - do 3 right.
    apply list_elem_of_lookup in Hin as [i Hi].
    destruct (Forall2_lookup_r _ _ _ _ _ Hks Hi) as (k & Hk & Hk').
    exists k. split; [|exact Hk']. by apply list_elem_of_lookup_2 in Hk.
Qed.

(** ** What the items carry *)

Lemma compact_no_empty (it : dict) k v :
  compact it = it → it !! k = Some v → ¬ empty_value v.
Proof.
  intros Hc Hk. rewrite <-Hc in Hk.
  apply compact_lookup_Some in Hk as [_ Hv]. by apply kept_value_nonempty.
Qed.

Lemma or_else_nonempty a s :
  s ≠ "" → Py.or_empty (Py.or_else a (Some s)) ≠ "".
Proof.
  intros Hs. destruct a as [r|]; simpl; [|done].
  destruct (Py.truthy r) eqn:E; simpl; [|done]. by apply truthy_true.
Qed.

(** X4.  Every item written for a paper carries the paper document under
    the names that are not key attributes, and holds no [None], empty string
    or empty list; the document of a paper that is written has its id, its
    categories and a [published] timestamp, the raw one or the one
    synthesised from the date. *)
Theorem items_carry_document (p : raw_paper) :
  Forall (λ it, carries (paper_document p) it
                ∧ ∀ k v, it !! k = Some v → ¬ empty_value v)
         (written p)
  ∧ (written p ≠ [] →
     paper_document p !! "arxiv_id" = Some (VStr (trimmed_id p))
     ∧ paper_document p !! "categories" = Some (VList (surviving_categories p)))
  ∧ paper_document p !! "published"
    = Some (VStr (Py.or_empty
                    (Py.or_else (r_published p)
                                (Some (published_date p +:+ "T00:00:00Z"))))).
Proof.
  split; [|split].
  - apply Forall_forall. intros it Hit.
    destruct (written_item_of p it Hit) as (_ & Hcar & Hcomp & _).
    split; [exact Hcar|]. intros k v. by apply compact_no_empty.
  - intros Hw. destruct (written_cases p) as [?|[Hid Hcat]]; [done|].
    split; [by apply paper_document_id|].
    unfold paper_document. apply compact_lookup_kept; [by simplify_map_eq|].
    simpl. by destruct (surviving_categories p).
  - unfold paper_document. apply compact_lookup_kept; [by simplify_map_eq|].
    apply kept_value_str, or_else_nonempty, append_nonempty_r. done.
Qed.

(** ** Queries over the items of a paper *)

Section selection.
Context (p : raw_paper).
Implicit Types (it : dict) (t c a k id : string).

Lemma satisfies_eq (req : query_req) it :
  q_between req = None →
  (satisfies req it = true ↔ it !! (q_key req).1 = Some (VStr (q_key req).2)).
Proof.
  intros Hb. unfold satisfies. rewrite Hb, andb_true_r.
  apply bool_decide_eq_true.
Qed.

Lemma item_keys_agree kind pk sk g1 g2 g3 kind' pk' sk' g1' g2' g3' it :
  item_keys kind pk sk g1 g2 g3 it → item_keys kind' pk' sk' g1' g2' g3' it →
  kind = kind' ∧ pk = pk' ∧ sk = sk' ∧ g1 = g1' ∧ g2 = g2' ∧ g3 = g3'.
Proof.
  intros (H1 & H2 & H3 & H4 & H5 & H6) (H1' & H2' & H3' & H4' & H5' & H6').
  rewrite H1 in H1'. rewrite H2 in H2'. rewrite H3 in H3'.
  rewrite H4 in H4'. rewrite H5 in H5'. rewrite H6 in H6'.
  injection H1' as ->. injection H2' as ->. injection H3' as ->.
  split_and!; try done.
  - destruct g1, g1'; simplify_eq/=; done.
  - destruct g2, g2'; simplify_eq/=; done.
  - destruct g3, g3'; simplify_eq/=; done.
Qed.
End selection.

Section selection_by_kind.
Context (p : raw_paper).
Implicit Types (it : dict) (t c a k id : string).

Lemma by_id_selects t id it :
  item_of p it →
  (satisfies (get_paper_by_id t id) it = true
   ↔ id = trimmed_id p ∧ master_of p it).
Proof.
  intros Hof. rewrite satisfies_eq by done. cbn [get_paper_by_id q_key fst snd].
  split.
  - intros Hsat.
    destruct Hof as [Hm|[(c & _ & Hc)|[(a & _ & Ha)|(k & _ & Hk)]]].
    + pose proof Hm as [(_ & _ & _ & _ & Hg & _) _].
      rewrite Hg in Hsat. simplify_eq/=. split; [reflexivity|exact Hm].
    + destruct Hc as (_ & _ & _ & _ & Hg & _). by rewrite Hg in Hsat.
    + destruct Ha as [(_ & _ & _ & _ & Hg & _) _]. by rewrite Hg in Hsat.
    + destruct Hk as [(_ & _ & _ & _ & Hg & _) _]. by rewrite Hg in Hsat.
  - intros [-> [(_ & _ & _ & _ & Hg & _) _]]. exact Hg.
Qed.

Lemma recent_selects t c lim it :
  item_of p it →
  (satisfies (query_recent_in_category t c lim) it = true ↔ category_of p c it).
Proof.
  intros Hof. rewrite satisfies_eq by done.
  cbn [query_recent_in_category q_key fst snd]. split.
  - intros Hsat.
    destruct Hof as [Hm|[(c' & _ & Hc)|[(a & _ & Ha)|(k & _ & Hk)]]].
    + destruct Hm as [(_ & Hg & _) _]. rewrite Hg in Hsat. by simplify_eq/=.
    + pose proof Hc as (_ & Hg & _). rewrite Hg in Hsat.
      simplify_eq/=. exact Hc.
    + destruct Ha as [(_ & Hg & _) _]. rewrite Hg in Hsat. by simplify_eq/=.
    + destruct Hk as [(_ & Hg & _) _]. rewrite Hg in Hsat. by simplify_eq/=.
  - intros (_ & Hg & _). exact Hg.
Qed.

Lemma by_author_selects t a it :
  item_of p it →
  (satisfies (query_papers_by_author t a) it = true ↔ author_of p a it).
Proof.
  intros Hof. rewrite satisfies_eq by done.
  cbn [query_papers_by_author q_key fst snd]. split.
  - intros Hsat.
    destruct Hof as [Hm|[(c & _ & Hc)|[(a' & _ & Ha)|(k & _ & Hk)]]].
    + destruct Hm as [(_ & _ & _ & Hg & _) _]. by rewrite Hg in Hsat.
    + destruct Hc as (_ & _ & _ & Hg & _). by rewrite Hg in Hsat.
    + pose proof Ha as [(_ & _ & _ & Hg & _) _]. rewrite Hg in Hsat.
      simplify_eq/=. exact Ha.
    + destruct Hk as [(_ & _ & _ & Hg & _) _]. by rewrite Hg in Hsat.
  - intros [(_ & _ & _ & Hg & _) _]. exact Hg.
Qed.

Lemma by_keyword_selects t k lim it :
  item_of p it →
  (satisfies (query_papers_by_keyword t k lim) it = true
   ↔ keyword_of p (Py.lower k) it).
Proof.
  intros Hof. rewrite satisfies_eq by done.
  cbn [query_papers_by_keyword q_key fst snd]. split.
  - intros Hsat.
    destruct Hof as [Hm|[(c & _ & Hc)|[(a & _ & Ha)|(k' & _ & Hk)]]].
    + destruct Hm as [(_ & _ & _ & _ & _ & Hg) _]. by rewrite Hg in Hsat.
    + destruct Hc as (_ & _ & _ & _ & _ & Hg). by rewrite Hg in Hsat.
    + destruct Ha as [(_ & _ & _ & _ & _ & Hg) _]. by rewrite Hg in Hsat.
    + pose proof Hk as [(_ & _ & _ & _ & _ & Hg) _]. rewrite Hg in Hsat.
      simplify_eq/=. exact Hk.
  - intros [(_ & _ & _ & _ & _ & Hg) _]. exact Hg.
Qed.
End selection_by_kind.

(** X5.  Among the items written for a paper, each of the four simple
    queries selects the items of its own kind and name, and no other: the
    lookup by id the master item, for the id of the paper only; the query on
    a category its category item; the query on an author the item of this
    author, spelled as stored; the query on a keyword the item of the
    keyword in lowercase, whatever the case asked. *)
Theorem queries_select_by_kind (p : raw_paper) (t : string) :
  Forall (λ it,
      (∀ id, satisfies (get_paper_by_id t id) it = true
             ↔ id = trimmed_id p ∧ master_of p it)
      ∧ (∀ c lim, satisfies (query_recent_in_category t c lim) it = true
                  ↔ category_of p c it)
      ∧ (∀ a, satisfies (query_papers_by_author t a) it = true
              ↔ author_of p a it)
      ∧ (∀ k lim, satisfies (query_papers_by_keyword t k lim) it = true
                  ↔ keyword_of p (Py.lower k) it))
    (written p).
Proof.
  apply Forall_forall. intros it Hit.
  destruct (written_item_of p it Hit) as (Hof & _).
  split_and!.
  - intros id. by apply by_id_selects.
  - intros c lim. by apply recent_selects.
  - intros a. by apply by_author_selects.
  - intros k lim. by apply by_keyword_selects.
Qed.

(** ** The date range query over the items of a paper *)

Lemma published_date_length p : String.length (published_date p) = 10.
Proof. apply ymd_length. Qed.

Lemma range_on_category_item p t c start end_ c' it :
  String.length start = 10 → String.length end_ = 10 →
  String.leb (trimmed_id p) "zzzzzzz" = true →
  category_of p c' it →
  (satisfies (query_papers_in_date_range t c start end_) it = true
   ↔ c' = c ∧ date_in_range start end_ (published_date p) = true).
Proof.
  intros Hs He Hid (_ & Hpk & Hsk & _).
  unfold satisfies, query_papers_in_date_range. cbn [q_key q_between fst snd].
  rewrite Hpk, Hsk. unfold dated_sort_key.
  rewrite lower_bound_matches, upper_bound_matches
    by by rewrite published_date_length.
  rewrite Hid, andb_true_iff, bool_decide_eq_true. unfold date_in_range.
  rewrite (leb_compare (published_date p) end_).
  split.
  - intros [[= Heq] Hr]. simplify_eq/=. split; [done|].
    by destruct (String.compare (published_date p) end_).
  - intros [-> Hr]. split; [done|].
    by destruct (String.compare (published_date p) end_).
Qed.

Lemma range_needs_category t c start end_ it pk :
  it !! "PK" = Some (VStr pk) → pk ≠ "CATEGORY#" +:+ c →
  satisfies (query_papers_in_date_range t c start end_) it = false.
Proof.
  intros Hpk Hne. unfold satisfies, query_papers_in_date_range.
  cbn [q_key q_between fst snd]. rewrite Hpk, bool_decide_eq_false_2; [done|].
  intros [=]. done.
Qed.

(** X6.  For a range of two ten-character dates and a paper whose id sorts
    no later than [zzzzzzz], the date range query over a category selects,
    among the items written for the paper, its item of this category when
    the published date lies in the range, bounds included, and nothing
    else. *)
Theorem loaded_entries_in_date_range (p : raw_paper) (t c start end_ : string) :
  String.length start = 10 → String.length end_ = 10 →
  String.leb (trimmed_id p) "zzzzzzz" = true →
  Forall (λ it,
      satisfies (query_papers_in_date_range t c start end_) it = true
      ↔ category_of p c it ∧ date_in_range start end_ (published_date p) = true)
    (written p).
Proof.
  intros Hs He Hid. apply Forall_forall. intros it Hit.
  destruct (written_item_of p it Hit) as (Hof & _).
  destruct Hof as [Hm|[(c' & _ & Hc)|[(a & _ & Ha)|(k & _ & Hk)]]].
  - pose proof Hm as [(Hkind & Hpk & _) _].
    rewrite (range_needs_category t c start end_ it _ Hpk) by done.
    split; [done|]. intros [(Hkind' & _) _]. rewrite Hkind in Hkind'. done.
  - rewrite (range_on_category_item p t c start end_ c' it) by done.
    split.
    + intros [-> Hr]. split; [exact Hc|exact Hr].
    + intros [Hc2 Hr]. split; [|exact Hr].
      pose proof Hc as (_ & Hpk & _). destruct Hc2 as (_ & Hpk' & _).
      rewrite Hpk in Hpk'. by simplify_eq/=.
  - pose proof Ha as [(Hkind & Hpk & _) _].
    rewrite (range_needs_category t c start end_ it _ Hpk) by done.
    split; [done|]. intros [(Hkind' & _) _]. rewrite Hkind in Hkind'. done.
  - pose proof Hk as [(Hkind & Hpk & _) _].
    rewrite (range_needs_category t c start end_ it _ Hpk) by done.
    split; [done|]. intros [(Hkind' & _) _]. rewrite Hkind in Hkind'. done.
Qed.

Lemma loaded_entries_in_date_range_sample :
  String.length "2023-01-01" = 10 ∧ String.length "2023-01-31" = 10
  ∧ String.leb (trimmed_id sample_paper) "zzzzzzz" = true
  ∧ Forall (λ it,
        satisfies (query_papers_in_date_range "arxiv-papers" "cs.LG"
                     "2023-01-01" "2023-01-31") it = true
        ↔ category_of sample_paper "cs.LG" it
          ∧ date_in_range "2023-01-01" "2023-01-31"
              (published_date sample_paper) = true)
      (written sample_paper).
Proof.
  split; [reflexivity|]. split; [reflexivity|]. split; [by vm_compute|].
  apply (loaded_entries_in_date_range sample_paper); by vm_compute.
Defined.

(** ** From the load to the lookup *)


Lemma item_keys_key_of kind pk sk g1 g2 g3 it :
  item_keys kind pk sk g1 g2 g3 it → key_of it = (pk, sk).
Proof.
  intros (_ & Hpk & Hsk & _). unfold key_of, str_at. by rewrite Hpk, Hsk.
Qed.




(** ** Papers with different ids *)

Lemma append_eq_length a : ∀ b x y,
  String.length a = String.length b → a +:+ x = b +:+ y → a = b ∧ x = y.
Proof.
  induction a as [|c a IH]; intros [|d b] x y Hlen Heq; simpl in *; try done.
  injection Heq as -> Heq. destruct (IH b x y) as [-> ->]; [lia|done|done].
Qed.

Lemma written_key p it :
  it ∈ written p →
  key_of it = ("PAPER#" +:+ trimmed_id p, "MASTER")
  ∨ ∃ pk, key_of it = (pk, dated_sort_key p).
Proof.
  intros Hit. destruct (written_item_of p it Hit) as (Hof & _).
  destruct Hof as [[Hm _]|[(c & _ & Hc)|[(a & _ & [Ha _])|(k & _ & [Hk _])]]].
  - left. by apply (item_keys_key_of _ _ _ _ _ _ _ Hm).
  - right. eexists. by apply (item_keys_key_of _ _ _ _ _ _ _ Hc).
  - right. eexists. by apply (item_keys_key_of _ _ _ _ _ _ _ Ha).
  - right. eexists. by apply (item_keys_key_of _ _ _ _ _ _ _ Hk).
Qed.

Lemma dated_sort_key_not_master p : dated_sort_key p ≠ "MASTER".
Proof.
  intros H. apply (f_equal String.length) in H.
  unfold dated_sort_key in H. rewrite !length_append, published_date_length in H.
  simpl in H. lia.
Qed.

Lemma dated_sort_key_inj p p' :
  dated_sort_key p = dated_sort_key p' → trimmed_id p = trimmed_id p'.
Proof.
  unfold dated_sort_key. intros H.
  apply append_eq_length in H as [_ H]; [by simplify_eq/=|].
  by rewrite !published_date_length.
Qed.

Lemma written_keys_disjoint p p' it it' :
  trimmed_id p ≠ trimmed_id p' →
  it ∈ written p → it' ∈ written p' → key_of it ≠ key_of it'.
Proof.
  intros Hne Hit Hit' Heq.
  destruct (written_key p it Hit) as [H|[pk H]];
    destruct (written_key p' it' Hit') as [H'|[pk' H']];
    rewrite H, H' in Heq.
  - by simplify_eq/=.
  - injection Heq as _ Heq. symmetry in Heq.
    by apply dated_sort_key_not_master in Heq.
  - injection Heq as _ Heq. by apply dated_sort_key_not_master in Heq.
  - injection Heq as _ Heq. by apply dated_sort_key_inj in Heq.
Qed.

Lemma write_all_comm (t : table) (l1 l2 : list dict) :
  (∀ a b, a ∈ l1 → b ∈ l2 → key_of a ≠ key_of b) →
  write_all (write_all t l1) l2 = write_all (write_all t l2) l1.
Proof.
  intros Hdis. apply map_eq. intros k. rewrite !write_all_lookup.
  destruct (last (filter (λ d, key_of d = k) l2)) as [d2|] eqn:E2;
    destruct (last (filter (λ d, key_of d = k) l1)) as [d1|] eqn:E1; try done.
  apply last_Some_elem_of, list_elem_of_filter in E1 as [K1 H1].
  apply last_Some_elem_of, list_elem_of_filter in E2 as [K2 H2].
  destruct (Hdis d1 d2 H1 H2). congruence.
Qed.

(** X8.  Two papers with different trimmed ids write under disjoint key
    pairs, so the table after a load does not depend on the order in which
    they come. *)
Theorem independent_papers_commute (t : table) (before after : list raw_paper)
    (p p' : raw_paper) :
  trimmed_id p ≠ trimmed_id p' →
  (∀ it it', it ∈ written p → it' ∈ written p' → key_of it ≠ key_of it')
  ∧ load t (before ++ p :: p' :: after) = load t (before ++ p' :: p :: after).
Proof.
  intros Hne. split; [intros it it'; by apply written_keys_disjoint|].
  rewrite !load_writes. f_equal. rewrite !bind_app, !bind_cons, !write_all_app.
  f_equal. apply write_all_comm. intros a b. by apply written_keys_disjoint.
Qed.

Lemma independent_papers_commute_sample :
  trimmed_id sample_paper ≠ trimmed_id other_paper
  ∧ load ∅ ([] ++ sample_paper :: other_paper :: [])
    = load ∅ ([] ++ other_paper :: sample_paper :: []).
Proof.
  split; [by vm_compute|].
  apply (independent_papers_commute ∅ [] [] sample_paper other_paper).
  by vm_compute.
Defined.

(** ** The statistics of a load *)

Lemma iter_incr_lookup n k (c : gmap string nat) k' :
  Nat.iter n (incr k) c !!! k'
  = if decide (k = k') then n + c !!! k' else c !!! k'.
Proof.
  destruct (decide (k = k')) as [->|Hne].
  - induction n as [|n IH]; simpl; [done|].
    unfold incr at 1. by rewrite lookup_total_insert_eq, IH.
  - induction n as [|n IH]; simpl; [done|].
    unfold incr at 1. by rewrite lookup_total_insert_ne.
Qed.

Lemma iter_incr_None n k (c : gmap string nat) k' :
  k ≠ k' → Nat.iter n (incr k) c !! k' = c !! k'.
Proof.
  intros Hne. induction n as [|n IH]; simpl; [done|].
  unfold incr at 1. by rewrite lookup_insert_ne.
Qed.

Lemma transform_step_kept st p :
  trimmed_id p ≠ "" → surviving_categories p ≠ [] →
  ∃ st',
    transform_step st p = Ok st'
    ∧ total_papers st' = S (total_papers st)
    ∧ total_items st' = total_items st + length (written p)
    ∧ length (written p)
      = 1 + length (surviving_categories p) + length (surviving_authors p)
        + length (extracted_keywords p)
    ∧ counts st'
      = Nat.iter (length (extracted_keywords p)) (incr "keyword")
          (Nat.iter (length (surviving_authors p)) (incr "author")
             (Nat.iter (length (surviving_categories p)) (incr "category")
                (incr "master" (counts st)))).
Proof.
  intros Hid Hcat. unfold transform_step.
  destruct (normalize p) as [n|] eqn:Hn.
  2:{ apply normalize_None in Hn as [?|?]; done. }
  destruct (normalized_items p n Hn)
    as (m & cs & aus & ks & _ & Hcs & Haus & Hks & Hb).
  destruct (generated_items_Some p n Hn) as (items & Hg & Hw & Hall).
  unfold generated_items in Hg. rewrite Hn, Hb in Hg.
  injection Hg as <-. rewrite Hb. cbn [mbind result_bind].
  destruct (batch_write_shaped (st_table st) _ Hall) as [-> _].
  eexists. split; [reflexivity|]. cbn [total_papers total_items counts].
  rewrite Hw. split; [reflexivity|]. split; [reflexivity|].
  split; [|reflexivity].
  apply Forall2_length in Hcs, Haus, Hks.
  cbn [length]. rewrite !length_app. lia.
Qed.

Lemma transform_step_skipped st p :
  trimmed_id p = "" ∨ surviving_categories p = [] →
  transform_step st p = Ok st.
Proof.
  intros H. apply normalize_None in H. unfold transform_step. by rewrite H.
Qed.

Lemma sum_list_cons x l : sum_list (x :: l) = x + sum_list l.
Proof. reflexivity. Qed.

Lemma kept_papers_cons p papers :
  kept_papers (p :: papers)
  = if decide (trimmed_id p ≠ "" ∧ surviving_categories p ≠ [])
    then p :: kept_papers papers else kept_papers papers.
Proof. unfold kept_papers. by rewrite filter_cons. Qed.

Lemma statistics_from st papers :
  ∃ st',
    for_each transform_step st papers = Ok st'
    ∧ total_papers st' = total_papers st + length (kept_papers papers)
    ∧ total_items st' = total_items st + length (papers ≫= written)
    ∧ counts st' !!! "master"
      = counts st !!! "master" + length (kept_papers papers)
    ∧ counts st' !!! "category"
      = counts st !!! "category"
        + entries surviving_categories (kept_papers papers)
    ∧ counts st' !!! "author"
      = counts st !!! "author" + entries surviving_authors (kept_papers papers)
    ∧ counts st' !!! "keyword"
      = counts st !!! "keyword"
        + entries extracted_keywords (kept_papers papers)
    ∧ length (papers ≫= written)
      = length (kept_papers papers)
        + entries surviving_categories (kept_papers papers)
        + entries surviving_authors (kept_papers papers)
        + entries extracted_keywords (kept_papers papers)
    ∧ ∀ k, k ∉ ["master"; "category"; "author"; "keyword"] →
           counts st' !! k = counts st !! k.
Proof.
  revert st. induction papers as [|p papers IH]; intros st.
  - exists st. unfold entries. simpl. repeat (split; [lia|]). done.
  - rewrite kept_papers_cons. cbn [for_each]. rewrite bind_cons, length_app.
    destruct (decide _) as [[Hid Hcat]|Hskip].
    + destruct (transform_step_kept st p Hid Hcat)
        as (st1 & -> & Hp & Hi & Hlen & Hc).
      cbn [mbind result_bind].
      destruct (IH st1) as (st' & -> & Hp' & Hi' & Hm & Hca & Ha & Hk & Hl & Ho).
      exists st'. split; [reflexivity|].
      rewrite Hc in Hm, Hca, Ha, Hk.
      rewrite !iter_incr_lookup in Hm, Hca, Ha, Hk.
      repeat case_decide; try done.
      unfold incr in Hm, Hca, Ha, Hk.
      rewrite lookup_total_insert_eq in Hm.
      rewrite lookup_total_insert_ne in Hca, Ha, Hk by done.
      unfold entries, compose in *. rewrite !fmap_cons.
      rewrite !sum_list_cons. cbn [length].
      split; [lia|]. split; [lia|]. split; [lia|]. split; [lia|].
      split; [lia|]. split; [lia|]. split; [lia|].
      intros k Hk'. rewrite Ho by done. rewrite Hc.
      rewrite !not_elem_of_cons in Hk'. destruct Hk' as (?&?&?&?&_).
      rewrite !iter_incr_None by done. unfold incr. by rewrite lookup_insert_ne.
    + assert (transform_step st p = Ok st) as ->.
      { apply transform_step_skipped.
        destruct (decide (trimmed_id p = "")); [by left|].
        destruct (decide (surviving_categories p = [])); [by right|].
        destruct Hskip. done. }
      rewrite (written_skipped p).
      2:{ destruct (decide (trimmed_id p = "")); [by left|].
          destruct (decide (surviving_categories p = [])); [by right|].
          destruct Hskip. done. }
      cbn [mbind result_bind length]. apply IH.
Qed.



(** ** From the load to the answer *)









(** ** What the HTTP handler sends and answers *)






(** ** The command line *)

(** X13.  [get_flag] reads the argument that follows the first occurrence
    of the flag: it gives a value exactly when the flag occurs and its first
    occurrence is not the last argument, and the default when the flag does
    not occur or first occurs at the end. *)
Theorem get_flag_first_occurrence (name : string) (args : list string) :
  (∀ v, get_flag name args = Some v
        ↔ ∃ pre post, args = pre ++ name :: v :: post ∧ name ∉ pre)
  ∧ (get_flag name args = None
     ↔ name ∉ args ∨ ∃ pre, args = pre ++ [name] ∧ name ∉ pre).
Proof.
  induction args as [|a args [IHs IHn]].
  - split; [intros v|]; simpl.
    + split; [done|]. intros (pre & post & H & _). by destruct pre.
    + split; [|done]. intros _. left. apply not_elem_of_nil.
  - cbn [get_flag]. destruct (String.eqb_spec a name) as [->|Hne].
    + split; [intros v|].
      * destruct args as [|w rest].
        { split; [done|]. intros ([|b pre] & post & H & Hpre).
          - discriminate H.
          - injection H as <- H. destruct Hpre. left. }
        split.
        { intros [= ->]. exists [], rest. split; [done|].
          apply not_elem_of_nil. }
        intros ([|b pre] & post & H & Hpre).
        { by injection H as ->. }
        injection H as <- H. destruct Hpre. left.
      * destruct args as [|w rest].
        { split; [|done]. intros _. right. exists []. split; [done|].
          apply not_elem_of_nil. }
        split; [done|]. intros [Hnot|([|b pre] & H & Hpre)].
        { destruct Hnot. left. }
        { discriminate H. }
        injection H as <- H. destruct Hpre. left.
    + split; [intros v|].
      * rewrite IHs. split.
        { intros (pre & post & -> & Hpre). exists (a :: pre), post.
          split; [done|]. rewrite not_elem_of_cons. split; [done|exact Hpre]. }
        intros ([|b pre] & post & H & Hpre).
        { injection H as -> _. done. }
        injection H as <- ->. apply not_elem_of_cons in Hpre as [_ Hpre].
        by exists pre, post.
      * rewrite IHn. split.
        { intros [Hnot|(pre & -> & Hpre)].
          - left. rewrite not_elem_of_cons. split; [done|exact Hnot].
          - right. exists (a :: pre). split; [done|].
            rewrite not_elem_of_cons. split; [done|exact Hpre]. }
        intros [Hnot|([|b pre] & H & Hpre)].
        { left. by apply not_elem_of_cons in Hnot as [_ ?]. }
        { injection H as -> _. done. }
        injection H as <- ->. apply not_elem_of_cons in Hpre as [_ Hpre].
        right. by exists pre.
Qed.

Lemma table_flag_nonempty args : table_flag args ≠ "".
Proof.
  unfold table_flag. destruct (get_flag "--table" args) as [[|c t]|]; done.
Qed.

Lemma main_cases (argv : list string) :
  match main argv with
  | Done (UsageExit code) => code = 2 ∧ length argv < 2
  | Done (Printed payload) =>
      2 ≤ length argv ∧ ∃ message, payload = error_payload message
  | Query req k =>
      (∃ prog cmd a rest,
         argv = prog :: cmd :: a :: rest
         ∧ ((cmd = "recent"
             ∧ ∃ limit, limit_flag (a :: rest) = inl limit
                        ∧ req = query_recent_in_category
                                  (table_flag (a :: rest)) a limit)
            ∨ (cmd = "author"
               ∧ req = query_papers_by_author (table_flag (a :: rest)) a)
            ∨ (cmd = "get"
               ∧ req = get_paper_by_id (table_flag (a :: rest)) a)
            ∨ (cmd = "daterange"
               ∧ ∃ start_date end_date rest',
                   rest = start_date :: end_date :: rest'
                   ∧ req = query_papers_in_date_range
                             (table_flag (a :: rest)) a start_date end_date)
            ∨ (cmd = "keyword"
               ∧ ∃ limit, limit_flag (a :: rest) = inl limit
                          ∧ req = query_papers_by_keyword
                                    (table_flag (a :: rest)) a limit)))
      ∧ ∀ items, ∃ kind fields,
          k items = Printed (("query_type", JText kind) :: fields)
  end.
Proof.
  destruct argv as [|prog [|cmd args]]; [simpl; lia..|].
  unfold main.
  destruct (String.eqb_spec cmd "recent") as [->|_].
  { destruct args as [|a rest]; [split; [simpl; lia|by eexists]|].
    destruct (limit_flag (a :: rest)) as [limit|message] eqn:Hl.
    2:{ split; [simpl; lia|by eexists]. }
    split; [|intros items; by eexists _, _].
    exists prog, "recent", a, rest. split; [done|]. left. split; [done|].
    by exists limit. }
  destruct (String.eqb_spec cmd "author") as [->|_].
  { destruct args as [|a rest]; [split; [simpl; lia|by eexists]|].
    split; [|intros items; by eexists _, _].
    exists prog, "author", a, rest. split; [done|]. right; left. done. }
  destruct (String.eqb_spec cmd "get") as [->|_].
  { destruct args as [|a rest]; [split; [simpl; lia|by eexists]|].
    split; [|intros items; by eexists _, _].
    exists prog, "get", a, rest. split; [done|]. do 2 right; left. done. }
  destruct (String.eqb_spec cmd "daterange") as [->|_].
  { destruct args as [|a [|s [|e rest]]];
      [split; [simpl; lia|by eexists]..|].
    split; [|intros items; by eexists _, _].
    exists prog, "daterange", a, (s :: e :: rest). split; [done|].
    do 3 right; left. split; [done|]. by exists s, e, rest. }
  destruct (String.eqb_spec cmd "keyword") as [->|_].
  { destruct args as [|a rest]; [split; [simpl; lia|by eexists]|].
    destruct (limit_flag (a :: rest)) as [limit|message] eqn:Hl.
    2:{ split; [simpl; lia|by eexists]. }
    split; [|intros items; by eexists _, _].
    exists prog, "keyword", a, rest. split; [done|]. do 4 right.
    split; [done|]. by exists limit. }
  split; [simpl; lia|by eexists].
Qed.

(** X14.  What the command line sends and prints.  Without a command the
    program exits with status 2.  Otherwise it prints an [error] payload
    without asking the store (no positional argument, too few for
    [daterange], a limit that is no integer, an unknown command), or it
    sends the query of the query function of its command, for the first
    argument as it stands, to the table of [--table], which is never the
    empty name, and prints a payload that begins with the query type; a
    failure of the store is printed as an [error] payload. *)
Theorem command_requests (argv : list string) :
  match main argv with
  | Done (UsageExit code) => code = 2 ∧ length argv < 2
  | Done (Printed payload) =>
      2 ≤ length argv ∧ ∃ message, payload = error_payload message
  | Query req k =>
      (∃ prog cmd a rest,
         argv = prog :: cmd :: a :: rest
         ∧ ((cmd = "recent"
             ∧ ∃ limit, limit_flag (a :: rest) = inl limit
                        ∧ req = query_recent_in_category
                                  (table_flag (a :: rest)) a limit)
            ∨ (cmd = "author"
               ∧ req = query_papers_by_author (table_flag (a :: rest)) a)
            ∨ (cmd = "get"
               ∧ req = get_paper_by_id (table_flag (a :: rest)) a)
            ∨ (cmd = "daterange"
               ∧ ∃ start_date end_date rest',
                   rest = start_date :: end_date :: rest'
                   ∧ req = query_papers_in_date_range
                             (table_flag (a :: rest)) a start_date end_date)
            ∨ (cmd = "keyword"
               ∧ ∃ limit, limit_flag (a :: rest) = inl limit
                          ∧ req = query_papers_by_keyword
                                    (table_flag (a :: rest)) a limit)))
      ∧ ∀ items, ∃ kind fields,
          k items = Printed (("query_type", JText kind) :: fields)
  end
  ∧ (∀ args, table_flag args ≠ "")
  ∧ (∀ store, run_main store argv = UsageExit 2 ↔ length argv < 2)
  ∧ (∀ store req k message,
       main argv = Query req k → store req = Failure message →
       run_main store argv = Printed (error_payload message)).
Proof.
  pose proof (main_cases argv) as H.
  split; [exact H|]. split; [apply table_flag_nonempty|]. split.
  - intros store. unfold run_main.
    destruct (main argv) as [[code|payload]|req k].
    + destruct H as [-> Hlen]. done.
    + destruct H as [Hlen _]. split; [done|lia].
    + destruct H as [(prog & cmd & a & rest & -> & _) Hk].
      destruct (store req) as [items|message].
      * destruct (Hk items) as (kind & fields & ->). split; [done|simpl; lia].
      * split; [done|simpl; lia].
  - intros store req k message Hm Hs. unfold run_main. by rewrite Hm, Hs.
Qed.

(** ** What a loaded table holds *)

Lemma write_all_size (l : list dict) : ∀ t : table,
  size (write_all t l) ≤ size t + length l.
Proof.
  unfold write_all. induction l as [|d l IH]; intros t; simpl; [lia|].
  etrans; [apply IH|]. rewrite map_size_insert.
  destruct (t !! key_of d); simpl; lia.
Qed.

Lemma write_all_present (l : list dict) (t : table) k :
  is_Some (write_all t l !! k) ↔ is_Some (t !! k) ∨ ∃ it, it ∈ l ∧ key_of it = k.
Proof.
  rewrite write_all_lookup.
  destruct (last (filter (λ d, key_of d = k) l)) as [d|] eqn:E.
  - apply last_Some_elem_of, list_elem_of_filter in E as [? ?].
    split; [|by eexists]. intros _. right. by exists d.
  - apply last_None in E. split; [by left|]. intros [H|(it & Hin & Hk)]; [done|].
    assert (it ∈ filter (λ d, key_of d = k) l) as Hf
      by by apply list_elem_of_filter.
    rewrite E in Hf. by apply elem_of_nil in Hf.
Qed.

(** X15.  What a load into an empty table leaves.  A key is in use exactly
    when an item written for a paper of the input has it, the item under a
    key is an item written for some paper of the input, of one of the four
    kinds and with this key, and the table holds no more items than the
    item total that the load reports. *)
Theorem loaded_table_contents (papers : list raw_paper) :
  ∃ st,
    transform_and_write ∅ papers = Ok st
    ∧ (∀ k, is_Some (st_table st !! k)
            ↔ ∃ p it, p ∈ papers ∧ it ∈ written p ∧ key_of it = k)
    ∧ (∀ k it, st_table st !! k = Some it →
         ∃ p, p ∈ papers ∧ it ∈ written p ∧ item_of p it ∧ key_of it = k)
    ∧ size (st_table st) ≤ total_items st.
Proof.
  unfold transform_and_write.
  destruct (statistics_from (LoadState ∅ 0 0 ∅) papers)
    as (st & Hrun & _ & Hi & _).
  destruct (transform_and_write_from (LoadState ∅ 0 0 ∅) papers)
    as (st' & Hrun' & Ht).
  rewrite Hrun in Hrun'. injection Hrun' as <-.
  cbn [st_table total_items] in Hi, Ht.
  exists st. split; [exact Hrun|]. rewrite Ht, Hi. split; [|split].
  - intros k. rewrite write_all_present. split.
    + intros [[? H]|(it & Hin & Hk)]; [by rewrite lookup_empty in H|].
      apply list_elem_of_bind in Hin as (p & Hit & Hp). by exists p, it.
    + intros (p & it & Hp & Hit & Hk). right. exists it. split; [|exact Hk].
      apply list_elem_of_bind. by exists p.
  - intros k it Hk. rewrite write_all_lookup in Hk.
    destruct (last (filter _ (papers ≫= written))) as [d|] eqn:E; [|done].
    injection Hk as ->.
    apply last_Some_elem_of, list_elem_of_filter in E as [Hkey Hin].
    apply list_elem_of_bind in Hin as (p & Hit & Hp).
    exists p. split; [exact Hp|]. split; [exact Hit|]. split; [|exact Hkey].
    by destruct (written_item_of p it Hit) as (Hof & _).
  - etrans; [apply write_all_size|]. rewrite map_size_empty. lia.
Qed.

(** ** The order of the sort keys *)

(** X16.  The sort keys order the items by date, then by id.  The category,
    author and keyword items of a paper have the dated sort key of the paper
    as [SK], and as sort key of the author and keyword indexes; two dated
    sort keys compare as the published dates do, and as the ids when the
    dates are the same.  So a query in descending order yields the latest
    date first. *)
Theorem sort_keys_order_by_date (p p' : raw_paper) :
  String.compare (dated_sort_key p) (dated_sort_key p')
  = match String.compare (published_date p) (published_date p') with
    | Eq => String.compare (trimmed_id p) (trimmed_id p')
    | o => o
    end
  ∧ Forall (λ it,
      master_of p it
      ∨ (it !! "SK" = Some (VStr (dated_sort_key p))
         ∧ (is_Some (it !! "GSI1PK") →
            it !! "GSI1SK" = Some (VStr (dated_sort_key p)))
         ∧ (is_Some (it !! "GSI3PK") →
            it !! "GSI3SK" = Some (VStr (dated_sort_key p)))))
      (written p).
Proof.
  split.
  - unfold dated_sort_key.
    rewrite compare_append by (by rewrite !published_date_length).
    destruct (String.compare (published_date p) (published_date p'));
      [|done..].
    reflexivity.
  - apply Forall_forall. intros it Hit.
    destruct (written_item_of p it Hit) as (Hof & _).
    destruct Hof as [Hm|[(c & _ & Hc)|[(a & _ & [Ha Hs])|(k & _ & [Hk Hs])]]].
    + by left.
    + right. destruct Hc as (_ & _ & Hsk & H1 & _ & H3).
      split; [exact Hsk|]. rewrite H1, H3. split; by intros [? ?].
    + right. destruct Ha as (_ & _ & Hsk & _ & _ & H3).
      split; [exact Hsk|]. rewrite H3. split; [done|by intros [? ?]].
    + right. destruct Hk as (_ & _ & Hsk & H1 & _ & _).
      split; [exact Hsk|]. rewrite H1. split; [by intros [? ?]|done].
Qed.
